(** * The lit analyzer: class, heritage and type resolution

    A shallow embedding of three modules of [@lit-labs/analyzer]:

    - [custom-elements/custom-elements.ts]: [getTagName],
      [isCustomElementSubclass];
    - [javascript/classes.ts]: [getClassMembers], [getClassDeclarationName],
      [getClassDeclarationInfo], [getHeritage], [getSuperClass];
    - [types.ts]: [getTypeForTypeString], [getTypeForNode], [getTypeForType],
      [getReferencesForTypeNode], [getSpecifierFromTypeImport], [parseType].

    The TypeScript compiler (syntax trees, type checker, language service) and
    the analyzer modules that these three import are collaborators: syntax is
    data, the checker and the path module are records of functions carried by
    the analyzer, and the imported helpers are the members of the class
    [Imports]. Mutable state (the analyzer's diagnostics, the scratch buffer of
    [types.ts]) is threaded through a state monad. *)

From Stdlib Require Import Ascii String List NArith Lia Bool.
From stdpp Require Import base option list strings gmap fin_maps.

Set Warnings "-register-all,-clear-no-such-hyp".
Local Open Scope string_scope.
Local Open Scope list_scope.

(** ** JavaScript strings

    A string is a sequence of code units; the model keeps the code units below
    256 (one [ascii] each), which covers every tag name and specifier the
    analyzer compares against. *)

(** [String.prototype.toLowerCase] on one code unit: A-Z, and the Latin-1
    capitals U+00C0..U+00DE apart from the multiplication sign U+00D7. *)
Definition lowerCodeUnit (c : ascii) : ascii :=
  let n := N_of_ascii c in
  if ((65 <=? n) && (n <=? 90) || (192 <=? n) && (n <=? 222) && negb (n =? 215))%N
  then ascii_of_N (n + 32)
  else c.

Fixpoint toLowerCase (s : string) : string :=
  match s with
  | EmptyString => EmptyString
  | String c s' => String (lowerCodeUnit c) (toLowerCase s')
  end.

(** White space and line terminators, as [String.prototype.trim] strips them:
    TAB, LF, VT, FF, CR, SP and NBSP. *)
Definition isWhiteSpace (c : ascii) : bool :=
  let n := N_of_ascii c in
  ((9 <=? n) && (n <=? 13) || (n =? 32) || (n =? 160))%N.

Fixpoint trimStart (s : string) : string :=
  match s with
  | EmptyString => EmptyString
  | String c s' => if isWhiteSpace c then trimStart s' else s
  end.

Fixpoint trimEnd (s : string) : string :=
  match s with
  | EmptyString => EmptyString
  | String c s' =>
      match trimEnd s' with
      | EmptyString => if isWhiteSpace c then EmptyString else String c EmptyString
      | r => String c r
      end
  end.

Definition trim (s : string) : string := trimEnd (trimStart s).

(** ** Syntax trees

    Nodes are the compiler's; the analyzer only reads them. Each record keeps
    the properties the analyzer reads. *)

Inductive ModifierKind : Type :=
| StaticKeyword | PublicKeyword | ProtectedKeyword | PrivateKeyword
| ExportKeyword | DefaultKeyword | OtherModifier.

(** Expressions, as far as the analyzer tells them apart. *)
Inductive Expression : Type :=
| Identifier (text : string)
| PrivateIdentifier (text : string)
| StringLiteral (text : string)
| NoSubstitutionTemplateLiteral (text : string)
| PropertyAccessExpression (expression name : Expression)
| CallExpression (expression : Expression) (arguments : list Expression)
| OtherExpression (sourceText : string).

Definition isIdentifier (e : Expression) : bool :=
  match e with Identifier _ => true | _ => false end.

Definition isStringLiteralLike (e : Expression) : bool :=
  match e with
  | StringLiteral _ | NoSubstitutionTemplateLiteral _ => true
  | _ => false
  end.

(** The name of a class member: its syntax kind and its source text
    ([name.getText()]). *)
Inductive PropertyNameKind : Type :=
| IdentifierName | PrivateIdentifierName | StringLiteralName
| NumericLiteralName | ComputedPropertyName.

Record PropertyName : Type := {
  nameKind : PropertyNameKind;
  nameText : string
}.

Definition isIdentifierName (n : PropertyName) : bool :=
  match nameKind n with IdentifierName => true | _ => false end.

(** A method body; only its presence is read. *)
Inductive Block : Type := BlockNode (sourceText : string).

(** An initializer with its source text ([initializer.getText()]). *)
Record Initializer : Type := {
  initializerExpression : Expression;
  initializerText : string
}.

Record MethodDeclaration : Type := {
  methodModifiers : list ModifierKind;
  methodName : PropertyName;
  methodBody : option Block
}.

Record PropertyDeclaration : Type := {
  propertyModifiers : list ModifierKind;
  propertyName : PropertyName;
  propertyInitializer : option Initializer
}.

Inductive ClassElement : Type :=
| Method (m : MethodDeclaration)
| Property (p : PropertyDeclaration)
| OtherElement (kindName : string).

Inductive HeritageToken : Type := ExtendsKeyword | ImplementsKeyword.

Record ExpressionWithTypeArguments : Type := {
  typeExpression : Expression
}.

Record HeritageClause : Type := {
  token : HeritageToken;
  types : list ExpressionWithTypeArguments
}.

(** A documentation tag: [tagName.text] and [comment], which is a string, a
    node array (a comment with inline links) or absent. *)
Inductive JSDocComment : Type :=
| CommentText (s : string)
| CommentNodes (parts : list string).

Record JSDocTag : Type := {
  tagName : string;
  comment : option JSDocComment
}.

(** The children of a class's parent, as [forEachChild] enumerates them. *)
Inductive ChildNode : Type :=
| ExpressionStatement (expression : Expression)
| OtherChild (kindName : string).

Record ParentNode : Type := {
  children : list ChildNode
}.

Inductive ClassKind : Type := ClassDeclarationKind | ClassExpressionKind.

Record ClassLikeDeclaration : Type := {
  classKind : ClassKind;
  classModifiers : list ModifierKind;
  className : option string;
  jsDocTags : list JSDocTag;
  heritageClauses : option (list HeritageClause);
  members : list ClassElement;
  parent : ParentNode
}.

(** Names in type position. *)
Inductive EntityName : Type :=
| NameIdentifier (text : string)
| QualifiedName (left : EntityName) (right : string).

(** Type syntax. [OtherTypeNode] stands for every kind that is neither a type
    reference nor an import type, with the children that can hold type
    syntax. *)
Inductive TypeNode : Type :=
| TypeReferenceNode (typeName : EntityName) (typeArguments : list TypeNode)
| ImportTypeNode (argument : TypeNode) (qualifier : option EntityName)
    (typeArguments : list TypeNode)
| LiteralTypeNode (literal : Expression)
| OtherTypeNode (kindName : string) (typeChildren : list TypeNode).

(** The statements of the scratch source file. *)
Inductive Statement : Type :=
| TypeAliasDeclaration (aliasName : string) (aliasType : TypeNode)
| OtherStatement (kindName : string).

Record SourceFile : Type := {
  statements : list Statement
}.

(** [ts.Node], for the places where any node may stand: a declaration of a
    symbol, a location, the node of a diagnostic. *)
Inductive Node : Type :=
| ClassLike (c : ClassLikeDeclaration)
| InterfaceDeclaration (interfaceName : string)
| ClassMember (m : ClassElement)
| ExpressionNode (e : Expression)
| HeritageClauseNode (h : HeritageClause)
| TypeSyntax (t : TypeNode)
| OtherNode (kindName : string).

Definition isClassLike (node : Node) : bool :=
  match node with ClassLike _ => true | _ => false end.

(** ** The type checker *)

Inductive TypeKind : Type :=
| StringKind | NumberKind | BooleanKind
| StringLiteralKind (value : string)
| NumberLiteralKind (value : string)
| BooleanLiteralKind (value : bool)
| ObjectKind
| OtherKind (kindName : string).

Record Symbol : Type := {
  symbolName : string;
  getDeclarations : option (list Node)
}.

Record TsType : Type := {
  typeKind : TypeKind;
  getSymbol : option Symbol
}.

Record TypeChecker : Type := {
  getTypeAtLocation : Node -> TsType;
  getBaseTypes : TsType -> list TsType;
  getBaseTypeOfLiteralType : TsType -> TsType;
  typeToString : TsType -> string;
  typeToTypeNode : TsType -> Node -> option TypeNode;
  getTypeFromTypeNode : TypeNode -> TsType
}.

(** [analyzer.path]: the two members [types.ts] calls. *)
Record PathModule : Type := {
  normalize : string -> string;
  isAbsolute : string -> bool
}.

(** The immutable part of [AnalyzerInterface]. *)
Record Analyzer : Type := {
  getTypeChecker : TypeChecker;
  path : PathModule
}.

(** ** Diagnostics and state *)

Inductive DiagnosticCategory : Type := Warning | Error | Suggestion | Message.

Inductive DiagnosticCode : Type := UNKNOWN | UNSUPPORTED.

Record DiagnosticOptions : Type := {
  node : Node;
  message : string;
  category : option DiagnosticCategory;
  code : option DiagnosticCode
}.

(** The diagnostic that [createDiagnostic] (errors.js) makes of its options. *)
Inductive Diagnostic : Type := createDiagnostic (options : DiagnosticOptions).

(** The language service of [types.ts] keeps the source file it parsed last,
    with the script version it parsed it at. *)
Record ServiceCache : Type := {
  cachedVersion : N;
  cachedSourceFile : option SourceFile
}.

(** What the analysis mutates: the analyzer's diagnostics, and the module
    variables [contents], [contentsId] and [service] of [types.ts]. *)
Record State : Type := {
  diagnostics : list Diagnostic;
  contents : string;
  contentsId : N;
  service : option ServiceCache
}.

Definition initialState : State :=
  {| diagnostics := []; contents := EmptyString; contentsId := 0; service := None |}.

Definition M (A : Type) : Type := State -> A * State.

Definition ret {A} (a : A) : M A := fun st => (a, st).

Definition bind {A B} (m : M A) (k : A -> M B) : M B :=
  fun st => let '(a, st') := m st in k a st'.

Notation "'let*' x ':=' m 'in' k" := (bind m (fun x => k))
  (at level 10, x pattern, m at level 100, k at level 200).

(** The state after more diagnostics were added. *)
Definition withDiagnostics (st : State) (ds : list Diagnostic) : State :=
  {| diagnostics := diagnostics st ++ ds;
     contents := contents st;
     contentsId := contentsId st;
     service := service st |}.

Definition addDiagnostic (d : Diagnostic) : M unit :=
  fun st => (tt, withDiagnostics st [d]).

(** An imported helper returns its result with the diagnostics it adds. *)
Definition Emits (A : Type) : Type := A * list Diagnostic.

Definition emit {A} (r : Emits A) : M A :=
  fun st => (fst r, withDiagnostics st (snd r)).

(** [array.forEach] with a callback that updates an accumulator. *)
Fixpoint forEach {A B} (f : B -> A -> M B) (l : list A) (acc : B) : M B :=
  match l with
  | [] => ret acc
  | x :: l' => let* acc' := f acc x in forEach f l' acc'
  end.

(** ** custom-elements.ts *)

(** The callback of [node.parent.forEachChild] in [getTagName]: the tag name
    found so far, updated by one child. *)
Definition defineCall (nodeName : option string) (tagName : option string)
    (child : ChildNode) : option string :=
  match child with
  | ExpressionStatement
      (CallExpression (PropertyAccessExpression expression name)
         (tagNameArg :: ctorArg :: _)) =>
      match expression, name, ctorArg with
      | Identifier object, Identifier member, Identifier ctor =>
          if String.eqb object "customElements" && String.eqb member "define"
             && isStringLiteralLike tagNameArg
             && bool_decide (Some ctor = nodeName)
          then match tagNameArg with
               | StringLiteral text | NoSubstitutionTemplateLiteral text => Some text
               | _ => tagName
               end
          else tagName
      | _, _, _ => tagName
      end
  | _ => tagName
  end.

(** The imperative scan: every child of the parent is visited, in order. *)
Definition imperativeDefine (node : ClassLikeDeclaration) : option string :=
  fold_left (defineCall (className node)) (children (parent node)) None.

Definition isCustomElementTag (tag : JSDocTag) : bool :=
  String.eqb (toLowerCase (tagName tag)) "customelement".

Definition getTagName (node : ClassLikeDeclaration) : option string :=
  match find isCustomElementTag (jsDocTags node) with
  | Some {| comment := Some (CommentText c) |} => Some (trim c)
  | _ => imperativeDefine node
  end.

(** [array.some] over checks that may not return: the first [true] ends the
    walk, and a check that does not return ends it without a result. *)
Fixpoint some {A} (f : A -> option bool) (l : list A) : option bool :=
  match l with
  | [] => Some false
  | x :: l' =>
      match f x with
      | Some true => Some true
      | Some false => some f l'
      | None => None
      end
  end.

Definition isHTMLElementInterface (declaration : Node) : bool :=
  match declaration with
  | InterfaceDeclaration name => String.eqb name "HTMLElement"
  | _ => false
  end.

(** [isCustomElementSubclass] and [_isCustomElementClassDeclaration] call each
    other along the base types the checker reports, which nothing bounds. The
    model counts the nested calls of [isCustomElementSubclass] and has no
    result ([None]) when [fuel] of them do not suffice;
    [isCustomElementClassDeclarationWith] is the body of
    [_isCustomElementClassDeclaration] over the call it makes. *)
Definition isCustomElementClassDeclarationWith
    (isSubclass : Node -> Analyzer -> option bool)
    (t : TsType) (analyzer : Analyzer) : option bool :=
  match getSymbol t ≫= getDeclarations with
  | Some declarations =>
      some
        (fun declaration =>
           if isHTMLElementInterface declaration then Some true
           else isSubclass declaration analyzer)
        declarations
  | None => Some false
  end.

Fixpoint isCustomElementSubclass (fuel : nat) (node : Node) (analyzer : Analyzer)
    : option bool :=
  match fuel with
  | O => None
  | S fuel' =>
      match node with
      | ClassLike c =>
          match getTagName c with
          | Some _ => Some true
          | None =>
              let checker := getTypeChecker analyzer in
              let type := getTypeAtLocation checker node in
              let baseTypes := getBaseTypes checker type in
              some
                (fun t =>
                   isCustomElementClassDeclarationWith
                     (isCustomElementSubclass fuel') t analyzer)
                baseTypes
          end
      | _ => Some false
      end
  end.

Definition _isCustomElementClassDeclaration (fuel : nat) (t : TsType)
    (analyzer : Analyzer) : option bool :=
  isCustomElementClassDeclarationWith (isCustomElementSubclass fuel) t analyzer.

(** ** The analyzer's model objects and the modules imported *)

Inductive Privacy : Type := Public | Protected | Private.

(** [Reference] (model.js): a name and the module it comes from, absent for a
    reference within the module or to a global. *)
Record Reference : Type := {
  referenceName : string;
  referenceModule : option string
}.

(** [Type] (model.js): the checker's type, its text, and the references of its
    syntax, computed when asked for. *)
Record AnalyzerType : Type := {
  type : TsType;
  text : string;
  getReferences : M (list Reference)
}.

(** [NamedDescribed] (model.js): a slot, a CSS property or a CSS part. *)
Record NamedDescribed : Type := {
  namedName : string;
  namedDescription : option string;
  namedSummary : option string
}.

(** [ClassHeritage] (model.js). *)
Record ClassHeritage : Type := {
  mixins : list Reference;
  superClass : option Reference
}.

(** The part of a package manifest [types.ts] reads. *)
Record PackageJson : Type := {
  main : option string;
  module : option string
}.

Record PackageInfo : Type := {
  rootDir : string;
  name : string;
  packageJson : PackageJson
}.

(** What the three modules import from the rest of the analyzer (utils.js,
    references.js, jsdoc.js, functions.js, packages.js, paths.js, events.js,
    lit-element.js), and the parser the language service of [types.ts] runs
    over its one script. A helper that takes the analyzer may add
    diagnostics. [addEventsToMap] and [getLitElementDeclaration] run in the
    whole state of the analysis: an event has a type, written as a type
    string in its [fires] tag, and type strings of documentation are
    resolved by [getTypeForTypeString], which rewrites the scratch buffer of
    [types.ts]. *)
Class Imports : Type := {
  FunctionLikeInfo : Type;
  NodeJSDocInfo : Type;
  Event : Type;
  LitElementDeclaration : Type;
  hasDefaultModifier : Node -> bool;
  hasStaticModifier : Node -> bool;
  hasExportModifier : Node -> bool;
  getPrivacy : Node -> Privacy;
  getReferenceForIdentifier : Expression -> Analyzer -> Emits (option Reference);
  getImportReference : string -> Expression -> string -> Analyzer -> Emits Reference;
  getReferenceForSymbol : Symbol -> Node -> Analyzer -> Emits (option Reference);
  getSymbolForName : string -> Node -> Analyzer -> Emits (option Symbol);
  parseNodeJSDocInfo : Node -> Analyzer -> Emits NodeJSDocInfo;
  getFunctionLikeInfo : Node -> string -> Analyzer -> Emits FunctionLikeInfo;
  getPackageInfo : string -> Analyzer -> PackageInfo;
  absoluteToPackage : string -> string -> string;
  resolveExtension : string -> Analyzer -> string;
  isLitElementSubclass : Node -> Analyzer -> bool;
  getLitElementDeclaration : ClassLikeDeclaration -> Analyzer -> M LitElementDeclaration;
  addEventsToMap : JSDocTag -> gmap string Event -> Analyzer -> M (gmap string Event);
  parseNamedJSDocInfo : JSDocTag -> Analyzer -> Emits (option NamedDescribed);
  parseSourceFile : string -> option SourceFile
}.

Section Embedding.
Context `{Imports}.

(** ** types.ts *)

(** [getRootName]: the left-most name of a possibly qualified name. *)
Fixpoint getRootNameOf (name : EntityName) : string :=
  match name with
  | QualifiedName qualifier _ => getRootNameOf qualifier
  | NameIdentifier text => text
  end.

Definition getRootName (name : option EntityName) : string :=
  match name with
  | None => EmptyString
  | Some name => getRootNameOf name
  end.

Definition getSpecifierFromTypeImport (specifier : string) (analyzer : Analyzer)
    : string :=
  let specifier := normalize (path analyzer) (resolveExtension specifier analyzer) in
  if isAbsolute (path analyzer) specifier then
    let info := getPackageInfo specifier analyzer in
    let modulePath := absoluteToPackage specifier (rootDir info) in
    let packageMain :=
      match module (packageJson info) with
      | Some m => Some m
      | None => main (packageJson info)
      end in
    let modulePath :=
      match packageMain with
      | Some entry => if String.eqb modulePath entry then EmptyString else modulePath
      | None => modulePath
      end in
    name info
      +:+ (if String.eqb modulePath EmptyString then EmptyString
           else "/" +:+ modulePath)
  else specifier.

(** [visit] of [getReferencesForTypeNode], with the array it pushes to as an
    accumulator. *)
Fixpoint visit (location : Node) (analyzer : Analyzer) (node : TypeNode)
    (references : list Reference) {struct node} : M (list Reference) :=
  let forEachChild :=
    fix forEachChild (nodes : list TypeNode) (references : list Reference)
        : M (list Reference) :=
      match nodes with
      | [] => ret references
      | child :: nodes' =>
          let* references := visit location analyzer child references in
          forEachChild nodes' references
      end in
  match node with
  | TypeReferenceNode typeName typeArguments =>
      let name := getRootName (Some typeName) in
      let* symbol := emit (getSymbolForName name location analyzer) in
      match symbol with
      | None =>
          let* _ := addDiagnostic (createDiagnostic
            {| node := location;
               message := "Could not get symbol for '" +:+ name +:+ "'.";
               category := None; code := None |}) in
          ret references
      | Some symbol =>
          let* ref := emit (getReferenceForSymbol symbol location analyzer) in
          let references :=
            match ref with
            | Some ref => references ++ [ref]
            | None => references
            end in
          forEachChild typeArguments references
      end
  | ImportTypeNode argument qualifier typeArguments =>
      match argument with
      | LiteralTypeNode literal =>
          let name := getRootName qualifier in
          match literal with
          | StringLiteral specifierText =>
              let specifier := getSpecifierFromTypeImport specifierText analyzer in
              let* ref := emit (getImportReference specifier literal name analyzer) in
              let* references := visit location analyzer argument (references ++ [ref]) in
              forEachChild typeArguments references
          | _ =>
              let* _ := addDiagnostic (createDiagnostic
                {| node := ExpressionNode literal;
                   message := "Expected import specifier to be a string literal";
                   category := None; code := None |}) in
              ret references
          end
      | _ =>
          let* _ := addDiagnostic (createDiagnostic
            {| node := TypeSyntax argument;
               message := "Expected a string literal.";
               category := None; code := None |}) in
          ret references
      end
  | LiteralTypeNode _ => ret references
  | OtherTypeNode _ typeChildren => forEachChild typeChildren references
  end.

Definition getReferencesForTypeNode (typeNode : TypeNode) (location : Node)
    (analyzer : Analyzer) : M (list Reference) :=
  visit location analyzer typeNode [].

Definition couldNotConvertType (location : Node) : Diagnostic :=
  createDiagnostic
    {| node := location;
       message := "Could not convert type to type node";
       category := Some Warning;
       code := None |}.

Definition getTypeForType (type : TsType) (location : Node) (analyzer : Analyzer)
    : M AnalyzerType :=
  let checker := getTypeChecker analyzer in
  let type := getBaseTypeOfLiteralType checker type in
  let text := typeToString checker type in
  match typeToTypeNode checker type location with
  | None =>
      let* _ := addDiagnostic (couldNotConvertType location) in
      ret {| type := type; text := text; getReferences := ret [] |}
  | Some typeNode =>
      ret {| type := type; text := text;
             getReferences := getReferencesForTypeNode typeNode location analyzer |}
  end.

Definition getTypeForNode (node : Node) (analyzer : Analyzer) : M AnalyzerType :=
  getTypeForType (getTypeAtLocation (getTypeChecker analyzer) node) node analyzer.

(** Modelled from the spec: the language service ([ts.createLanguageService],
    not part of the repository) that [parseType] asks for its program. It
    reads the host's script version ([contentsId]) and snapshot ([contents]);
    a version that differs from the one it parsed at invalidates the cached
    parse, and the parser runs over the current contents. The source file is
    absent when the service has no program or no such file. *)
Definition getSourceFile : M (option SourceFile) :=
  fun st =>
    let reparse :=
      let sourceFile := parseSourceFile (contents st) in
      (sourceFile,
       {| diagnostics := diagnostics st;
          contents := contents st;
          contentsId := contentsId st;
          service := Some {| cachedVersion := contentsId st;
                             cachedSourceFile := sourceFile |} |}) in
    match service st with
    | Some cache =>
        if (cachedVersion cache =? contentsId st)%N
        then (cachedSourceFile cache, st)
        else reparse
    | None => reparse
    end.

(** The two assignments that open [parseType]. *)
Definition updateContents (typeString : string) : M unit :=
  fun st =>
    (tt, {| diagnostics := diagnostics st;
            contents := "export type typeToParse = " +:+ typeString;
            contentsId := contentsId st + 1;
            service := service st |}).

(** The callback of [ts.forEachChild (sourceFile, ...)] in [parseType]. *)
Definition typeAlias (typeNode : option TypeNode) (node : Statement)
    : option TypeNode :=
  match node with
  | TypeAliasDeclaration _ aliasType => Some aliasType
  | _ => typeNode
  end.

Definition parseType (typeString : string) : M (option TypeNode) :=
  let* _ := updateContents typeString in
  let* sourceFile := getSourceFile in
  match sourceFile with
  | None => ret None
  | Some sourceFile => ret (fold_left typeAlias (statements sourceFile) None)
  end.

Definition failedToParseType (location : Node) : Diagnostic :=
  createDiagnostic
    {| node := location;
       message := "Failed to parse type from JSDoc comment.";
       category := Some Warning;
       code := None |}.

(** [typeString] is optional: the function tests it against [undefined]. *)
Definition getTypeForTypeString (typeString : option string) (location : Node)
    (analyzer : Analyzer) : M (option AnalyzerType) :=
  match typeString with
  | Some typeString =>
      let* typeNode := parseType typeString in
      match typeNode with
      | None =>
          let* _ := addDiagnostic (failedToParseType location) in
          ret None
      | Some typeNode =>
          let type := getTypeFromTypeNode (getTypeChecker analyzer) typeNode in
          ret (Some {| type := type; text := typeString;
                       getReferences :=
                         getReferencesForTypeNode typeNode location analyzer |})
      end
  | None => ret None
  end.

(** ** classes.ts *)

Record MemberInfo : Type := {
  memberName : string;
  static : bool;
  privacy : Privacy
}.

(** [ClassMethod] and [ClassField] (model.js), by the objects their
    initializers are spread from. *)
Record ClassMethod : Type := {
  methodInfo : MemberInfo;
  methodFunctionLikeInfo : FunctionLikeInfo;
  methodJSDocInfo : NodeJSDocInfo
}.

Record ClassField : Type := {
  fieldInfo : MemberInfo;
  fieldDefault : option string;
  fieldType : AnalyzerType;
  fieldJSDocInfo : NodeJSDocInfo
}.

Record ClassMembers : Type := {
  fieldMap : gmap string ClassField;
  staticFieldMap : gmap string ClassField;
  methodMap : gmap string ClassMethod;
  staticMethodMap : gmap string ClassMethod
}.

Definition noMembers : ClassMembers :=
  {| fieldMap := ∅; staticFieldMap := ∅; methodMap := ∅; staticMethodMap := ∅ |}.

Definition memberNode (node : MethodDeclaration + PropertyDeclaration) : Node :=
  match node with
  | inl m => ClassMember (Method m)
  | inr p => ClassMember (Property p)
  end.

Definition getMemberInfo (node : MethodDeclaration + PropertyDeclaration)
    : MemberInfo :=
  {| memberName :=
       nameText match node with
                | inl m => methodName m
                | inr p => propertyName p
                end;
     static := hasStaticModifier (memberNode node);
     privacy := getPrivacy (memberNode node) |}.

Definition unsupportedPropertyName (node : ClassElement) : Diagnostic :=
  createDiagnostic
    {| node := ClassMember node;
       message :=
         "@lit-labs/analyzer only supports analyzing class properties "
         +:+ "named with plain identifiers. This property was ignored.";
       category := Some Warning;
       code := Some UNSUPPORTED |}.

(** The callback of [declaration.members.forEach] in [getClassMembers], over
    the four maps it fills. *)
Definition addMember (analyzer : Analyzer) (maps : ClassMembers)
    (node : ClassElement) : M ClassMembers :=
  match node with
  | Method m =>
      match methodBody m with
      | Some _ =>
          let info := getMemberInfo (inl m) in
          let name := nameText (methodName m) in
          let* functionLikeInfo :=
            emit (getFunctionLikeInfo (ClassMember node) name analyzer) in
          let* jsDocInfo := emit (parseNodeJSDocInfo (ClassMember node) analyzer) in
          let method :=
            {| methodInfo := info;
               methodFunctionLikeInfo := functionLikeInfo;
               methodJSDocInfo := jsDocInfo |} in
          ret (if static info
               then {| fieldMap := fieldMap maps;
                       staticFieldMap := staticFieldMap maps;
                       methodMap := methodMap maps;
                       staticMethodMap := <[name := method]> (staticMethodMap maps) |}
               else {| fieldMap := fieldMap maps;
                       staticFieldMap := staticFieldMap maps;
                       methodMap := <[name := method]> (methodMap maps);
                       staticMethodMap := staticMethodMap maps |})
      | None => ret maps
      end
  | Property p =>
      if negb (isIdentifierName (propertyName p)) then
        let* _ := addDiagnostic (unsupportedPropertyName node) in
        ret maps
      else
        let info := getMemberInfo (inr p) in
        let* type := getTypeForNode (ClassMember node) analyzer in
        let* jsDocInfo := emit (parseNodeJSDocInfo (ClassMember node) analyzer) in
        let field :=
          {| fieldInfo := info;
             fieldDefault := initializerText <$> propertyInitializer p;
             fieldType := type;
             fieldJSDocInfo := jsDocInfo |} in
        let name := nameText (propertyName p) in
        ret (if static info
             then {| fieldMap := fieldMap maps;
                     staticFieldMap := <[name := field]> (staticFieldMap maps);
                     methodMap := methodMap maps;
                     staticMethodMap := staticMethodMap maps |}
             else {| fieldMap := <[name := field]> (fieldMap maps);
                     staticFieldMap := staticFieldMap maps;
                     methodMap := methodMap maps;
                     staticMethodMap := staticMethodMap maps |})
  | OtherElement _ => ret maps
  end.

Definition getClassMembers (declaration : ClassLikeDeclaration)
    (analyzer : Analyzer) : M ClassMembers :=
  forEach (addMember analyzer) (members declaration) noMembers.

Definition notConcreteSuperclass (expression : Expression) : Diagnostic :=
  createDiagnostic
    {| node := ExpressionNode expression;
       message := "Expected expression to be a concrete superclass. "
                  +:+ "Mixins are not yet supported.";
       category := Some Warning;
       code := Some UNSUPPORTED |}.

Definition getSuperClass (expression : Expression) (analyzer : Analyzer)
    : M (option Reference) :=
  if isIdentifier expression then
    emit (getReferenceForIdentifier expression analyzer)
  else
    let* _ := addDiagnostic (notConcreteSuperclass expression) in
    ret None.

Definition getHeritageFromExpression (expression : Expression)
    (analyzer : Analyzer) : M ClassHeritage :=
  let mixins := [] in
  let* superClass := getSuperClass expression analyzer in
  ret {| mixins := mixins; superClass := superClass |}.

Definition isExtendsClause (c : HeritageClause) : bool :=
  match token c with ExtendsKeyword => true | _ => false end.

Definition multipleExtendsTypes (extendsClause : HeritageClause) : Diagnostic :=
  createDiagnostic
    {| node := HeritageClauseNode extendsClause;
       message :=
         "Illegal syntax: did not expect extends clause to have multiple types";
       category := None;
       code := None |}.

Definition getHeritage (declaration : ClassLikeDeclaration) (analyzer : Analyzer)
    : M ClassHeritage :=
  let empty := {| mixins := []; superClass := None |} in
  match heritageClauses declaration ≫= find isExtendsClause with
  | Some extendsClause =>
      match types extendsClause with
      | [extendsType] =>
          getHeritageFromExpression (typeExpression extendsType) analyzer
      | _ =>
          let* _ := addDiagnostic (multipleExtendsTypes extendsClause) in
          ret empty
      end
  | None => ret empty
  end.

(** ** custom-elements.ts, continued *)

Record JSDocData : Type := {
  nodeJSDocInfo : NodeJSDocInfo;
  events : gmap string Event;
  slots : gmap string NamedDescribed;
  cssProperties : gmap string NamedDescribed;
  cssParts : gmap string NamedDescribed
}.

Definition addNamedJSDocInfoToMap (map : gmap string NamedDescribed)
    (tag : JSDocTag) (analyzer : Analyzer) : M (gmap string NamedDescribed) :=
  let* info := emit (parseNamedJSDocInfo tag analyzer) in
  match info with
  | Some info => ret (<[namedName info := info]> map)
  | None => ret map
  end.

(** The four maps [getJSDocData] fills, and the body of its loop over the
    tags. *)
Record TagMaps : Type := {
  tagEvents : gmap string Event;
  tagSlots : gmap string NamedDescribed;
  tagCssProperties : gmap string NamedDescribed;
  tagCssParts : gmap string NamedDescribed
}.

Definition addTag (analyzer : Analyzer) (maps : TagMaps) (tag : JSDocTag)
    : M TagMaps :=
  if String.eqb (tagName tag) "fires" then
    let* events := addEventsToMap tag (tagEvents maps) analyzer in
    ret {| tagEvents := events; tagSlots := tagSlots maps;
           tagCssProperties := tagCssProperties maps;
           tagCssParts := tagCssParts maps |}
  else if String.eqb (tagName tag) "slot" then
    let* slots := addNamedJSDocInfoToMap (tagSlots maps) tag analyzer in
    ret {| tagEvents := tagEvents maps; tagSlots := slots;
           tagCssProperties := tagCssProperties maps;
           tagCssParts := tagCssParts maps |}
  else if String.eqb (tagName tag) "cssProp"
          || String.eqb (tagName tag) "cssProperty" then
    let* cssProperties :=
      addNamedJSDocInfoToMap (tagCssProperties maps) tag analyzer in
    ret {| tagEvents := tagEvents maps; tagSlots := tagSlots maps;
           tagCssProperties := cssProperties;
           tagCssParts := tagCssParts maps |}
  else if String.eqb (tagName tag) "cssPart" then
    let* cssParts := addNamedJSDocInfoToMap (tagCssParts maps) tag analyzer in
    ret {| tagEvents := tagEvents maps; tagSlots := tagSlots maps;
           tagCssProperties := tagCssProperties maps;
           tagCssParts := cssParts |}
  else ret maps.

Definition getJSDocData (node : ClassLikeDeclaration) (analyzer : Analyzer)
    : M JSDocData :=
  let* maps :=
    forEach (addTag analyzer) (jsDocTags node)
      {| tagEvents := ∅; tagSlots := ∅; tagCssProperties := ∅; tagCssParts := ∅ |} in
  let* info := emit (parseNodeJSDocInfo (ClassLike node) analyzer) in
  ret {| nodeJSDocInfo := info;
         events := tagEvents maps;
         slots := tagSlots maps;
         cssProperties := tagCssProperties maps;
         cssParts := tagCssParts maps |}.

(** [CustomElementDeclaration] and [ClassDeclaration] (model.js). *)
Record CustomElementDeclaration : Type := {
  tagname : option string;
  customElementName : string;
  customElementNode : ClassLikeDeclaration;
  customElementJSDocData : JSDocData;
  customElementGetHeritage : M ClassHeritage;
  customElementMembers : ClassMembers
}.

Definition getCustomElementDeclaration (node : ClassLikeDeclaration)
    (analyzer : Analyzer) : M CustomElementDeclaration :=
  let tagname := getTagName node in
  let name := default EmptyString (className node) in
  let* jsDocData := getJSDocData node analyzer in
  let* classMembers := getClassMembers node analyzer in
  ret {| tagname := tagname;
         customElementName := name;
         customElementNode := node;
         customElementJSDocData := jsDocData;
         customElementGetHeritage := getHeritage node analyzer;
         customElementMembers := classMembers |}.

(** ** classes.ts, continued *)

Record ClassDeclaration : Type := {
  classDeclarationName : string;
  classDeclarationNode : ClassLikeDeclaration;
  classGetHeritage : M ClassHeritage;
  classJSDocInfo : NodeJSDocInfo;
  classMembers : ClassMembers
}.

(** What [getClassDeclaration] returns: one of the three models. *)
Inductive Declaration : Type :=
| LitElementModel (d : LitElementDeclaration)
| CustomElementModel (d : CustomElementDeclaration)
| ClassModel (d : ClassDeclaration).

(** [getClassDeclaration] has no result ([None]) when
    [isCustomElementSubclass] has none within [fuel]. *)
Definition getClassDeclaration (fuel : nat) (declaration : ClassLikeDeclaration)
    (name : string) (analyzer : Analyzer) (docNode : option Node)
    : M (option Declaration) :=
  if isLitElementSubclass (ClassLike declaration) analyzer then
    let* d := getLitElementDeclaration declaration analyzer in
    ret (Some (LitElementModel d))
  else
    match isCustomElementSubclass fuel (ClassLike declaration) analyzer with
    | None => ret None
    | Some true =>
        let* d := getCustomElementDeclaration declaration analyzer in
        ret (Some (CustomElementModel d))
    | Some false =>
        let* jsDocInfo :=
          emit (parseNodeJSDocInfo (default (ClassLike declaration) docNode)
                  analyzer) in
        let* classMembers := getClassMembers declaration analyzer in
        ret (Some (ClassModel
          {| classDeclarationName := name;
             classDeclarationNode := declaration;
             classGetHeritage := getHeritage declaration analyzer;
             classJSDocInfo := jsDocInfo;
             classMembers := classMembers |}))
    end.

Definition unnamedClass (declaration : ClassLikeDeclaration) : Diagnostic :=
  createDiagnostic
    {| node := ClassLike declaration;
       message :=
         "Illegal syntax: a class declaration must either have a name "
         +:+ "or be a default export";
       category := None;
       code := None |}.

Definition getClassDeclarationName (declaration : ClassLikeDeclaration)
    (analyzer : Analyzer) : M (option string) :=
  let name :=
    match className declaration with
    | Some text => Some text
    | None =>
        if hasDefaultModifier (ClassLike declaration) then Some "default" else None
    end in
  match name with
  | None =>
      let* _ := addDiagnostic (unnamedClass declaration) in
      ret name
  | Some _ => ret name
  end.

(** [DeclarationInfo] (model.js); [factory] takes the fuel of
    [getClassDeclaration]. *)
Record DeclarationInfo : Type := {
  declarationName : string;
  declarationNode : ClassLikeDeclaration;
  factory : nat -> M (option Declaration);
  isExport : bool
}.

Definition getClassDeclarationInfo (declaration : ClassLikeDeclaration)
    (analyzer : Analyzer) : M (option DeclarationInfo) :=
  let* name := getClassDeclarationName declaration analyzer in
  match name with
  | None => ret None
  | Some name =>
      ret (Some
        {| declarationName := name;
           declarationNode := declaration;
           factory := fun fuel =>
             getClassDeclaration fuel declaration name analyzer None;
           isExport := hasExportModifier (ClassLike declaration) |})
  end.

End Embedding.

(** ** A program to run the analyzer on

    An instance of the imports and of the checker for the examples below:
    modifier look-ups, references that keep the name they are asked for, a
    POSIX path module, one installed package, and a parser and a checker for
    four shapes of type. Three classes form a chain to [HTMLElement]. *)

#[local] Instance ModifierKind_eq_dec : EqDecision ModifierKind.
Proof. solve_decision. Defined.

Definition modifiersOf (node : Node) : list ModifierKind :=
  match node with
  | ClassLike c => classModifiers c
  | ClassMember (Method m) => methodModifiers m
  | ClassMember (Property p) => propertyModifiers p
  | _ => []
  end.

Definition hasModifier (k : ModifierKind) (node : Node) : bool :=
  bool_decide (k ∈ modifiersOf node).

Definition examplePrivacy (node : Node) : Privacy :=
  if hasModifier PrivateKeyword node then Private
  else if hasModifier ProtectedKeyword node then Protected
  else Public.

Definition typeTextOf (contents : string) : string :=
  let declared := String.length "export type typeToParse = " in
  substring declared (String.length contents - declared) contents.

Definition exampleParse (contents : string) : option SourceFile :=
  if negb (String.prefix "export type typeToParse = " contents) then None
  else
    let t := typeTextOf contents in
    if String.eqb t EmptyString then
      Some {| statements := [OtherStatement "EndOfFileToken"] |}
    else
      let typeNode :=
        if String.prefix "'" t then
          LiteralTypeNode (StringLiteral (substring 1 (String.length t - 2) t))
        else if String.eqb t "string" then OtherTypeNode "StringKeyword" []
        else TypeReferenceNode (NameIdentifier t) [] in
      Some {| statements := [TypeAliasDeclaration "typeToParse" typeNode;
                             OtherStatement "EndOfFileToken"] |}.

Definition litPackage : PackageInfo :=
  {| rootDir := "/repo/node_modules/lit";
     name := "lit";
     packageJson := {| main := Some "index.js"; module := None |} |}.

Definition appPackage : PackageInfo :=
  {| rootDir := "/repo";
     name := "my-app";
     packageJson := {| main := None; module := None |} |}.

#[local] Instance exampleImports : Imports := {|
  FunctionLikeInfo := string;
  NodeJSDocInfo := unit;
  Event := unit;
  LitElementDeclaration := unit;
  hasDefaultModifier := hasModifier DefaultKeyword;
  hasStaticModifier := hasModifier StaticKeyword;
  hasExportModifier := hasModifier ExportKeyword;
  getPrivacy := examplePrivacy;
  getReferenceForIdentifier := fun e _ =>
    match e with
    | Identifier text => (Some {| referenceName := text; referenceModule := None |}, [])
    | _ => (None, [])
    end;
  getImportReference := fun specifier _ name _ =>
    ({| referenceName := name; referenceModule := Some specifier |}, []);
  getReferenceForSymbol := fun symbol _ _ =>
    (Some {| referenceName := symbolName symbol; referenceModule := None |}, []);
  getSymbolForName := fun name _ _ =>
    (Some {| symbolName := name; getDeclarations := None |}, []);
  parseNodeJSDocInfo := fun _ _ => (tt, []);
  getFunctionLikeInfo := fun _ name _ => (name, []);
  getPackageInfo := fun p _ =>
    if String.prefix "/repo/node_modules/lit/" p then litPackage else appPackage;
  absoluteToPackage := fun p root =>
    substring (String.length root + 1) (String.length p) p;
  resolveExtension := fun p _ => p;
  isLitElementSubclass := fun _ _ => false;
  getLitElementDeclaration := fun _ _ => ret tt;
  addEventsToMap := fun _ events _ => ret events;
  parseNamedJSDocInfo := fun tag _ =>
    (Some {| namedName := tagName tag; namedDescription := None;
             namedSummary := None |}, []);
  parseSourceFile := exampleParse
|}.

Definition sourceFileOf (statements : list ChildNode) : ParentNode :=
  {| children := statements |}.

Definition extendsClauseOf (names : list string) : HeritageClause :=
  {| token := ExtendsKeyword;
     types := map (fun n => {| typeExpression := Identifier n |}) names |}.

Definition classNamed (n : string) (base : string) : ClassLikeDeclaration :=
  {| classKind := ClassDeclarationKind;
     classModifiers := [];
     className := Some n;
     jsDocTags := [];
     heritageClauses := Some [extendsClauseOf [base]];
     members := [];
     parent := sourceFileOf [OtherChild "ClassDeclaration"] |}.

Definition classBase : ClassLikeDeclaration := classNamed "BaseElement" "HTMLElement".
Definition classMiddle : ClassLikeDeclaration := classNamed "MiddleElement" "BaseElement".
Definition classFoo : ClassLikeDeclaration := classNamed "Foo" "MiddleElement".

Definition typeOfKind (k : TypeKind) : TsType :=
  {| typeKind := k; getSymbol := None |}.

Definition classType (c : ClassLikeDeclaration) : TsType :=
  {| typeKind := ObjectKind;
     getSymbol := Some {| symbolName := default EmptyString (className c);
                          getDeclarations := Some [ClassLike c] |} |}.

Definition htmlElementType : TsType :=
  {| typeKind := ObjectKind;
     getSymbol := Some {| symbolName := "HTMLElement";
                          getDeclarations :=
                            Some [InterfaceDeclaration "HTMLElement";
                                  OtherNode "VariableDeclaration"] |} |}.

Definition symbolNameOf (t : TsType) : string :=
  default EmptyString (symbolName <$> getSymbol t).

Definition doubleQuote : string := String (ascii_of_nat 34) EmptyString.

Definition exampleChecker : TypeChecker :=
  {| getTypeAtLocation := fun node =>
       match node with
       | ClassLike c => classType c
       | ClassMember (Property p) =>
           match initializerExpression <$> propertyInitializer p with
           | Some (StringLiteral v) => typeOfKind (StringLiteralKind v)
           | _ => typeOfKind (OtherKind "any")
           end
       | _ => typeOfKind (OtherKind "any")
       end;
     getBaseTypes := fun t =>
       if String.eqb (symbolNameOf t) "Foo" then [classType classMiddle]
       else if String.eqb (symbolNameOf t) "MiddleElement" then [classType classBase]
       else if String.eqb (symbolNameOf t) "BaseElement" then [htmlElementType]
       else [];
     getBaseTypeOfLiteralType := fun t =>
       match typeKind t with
       | StringLiteralKind _ => typeOfKind StringKind
       | NumberLiteralKind _ => typeOfKind NumberKind
       | BooleanLiteralKind _ => typeOfKind BooleanKind
       | _ => t
       end;
     typeToString := fun t =>
       match typeKind t with
       | StringKind => "string"
       | NumberKind => "number"
       | BooleanKind => "boolean"
       | StringLiteralKind v => doubleQuote +:+ v +:+ doubleQuote
       | NumberLiteralKind v => v
       | BooleanLiteralKind b => if b then "true" else "false"
       | ObjectKind => symbolNameOf t
       | OtherKind k => k
       end;
     typeToTypeNode := fun t _ =>
       match typeKind t with
       | StringKind => Some (OtherTypeNode "StringKeyword" [])
       | StringLiteralKind v => Some (LiteralTypeNode (StringLiteral v))
       | ObjectKind => Some (TypeReferenceNode (NameIdentifier (symbolNameOf t)) [])
       | _ => None
       end;
     getTypeFromTypeNode := fun n =>
       match n with
       | LiteralTypeNode (StringLiteral v) => typeOfKind (StringLiteralKind v)
       | OtherTypeNode "StringKeyword" _ => typeOfKind StringKind
       | _ => typeOfKind (OtherKind "any")
       end |}.

(** POSIX [path.isAbsolute]: the path starts with a slash; the paths of the
    examples are normalized already. *)
Definition posix : PathModule :=
  {| normalize := fun p => p;
     isAbsolute := fun p =>
       match p with
       | String c _ => Ascii.eqb c "/"
       | EmptyString => false
       end |}.

Definition exampleAnalyzer : Analyzer :=
  {| getTypeChecker := exampleChecker; path := posix |}.

(** The statement [customElements.define('tag', Ctor);]. *)
Definition customElementsDefine (tag ctor : string) : ChildNode :=
  ExpressionStatement
    (CallExpression
       (PropertyAccessExpression (Identifier "customElements") (Identifier "define"))
       [StringLiteral tag; Identifier ctor]).

(** A class with a documentation tag in capitals and a define call that
    disagrees with it. *)
Definition classTagged : ClassLikeDeclaration :=
  {| classKind := ClassDeclarationKind;
     classModifiers := [];
     className := Some "XFoo";
     jsDocTags := [{| tagName := "summary"; comment := Some (CommentText "An element") |};
                   {| tagName := "CUSTOMELEMENT"; comment := Some (CommentText " x-foo ") |}];
     heritageClauses := None;
     members := [];
     parent := sourceFileOf [OtherChild "ClassDeclaration";
                             customElementsDefine "x-bar" "XFoo"] |}.

(** ** Inheritance, as the checker reports it *)

(** [onlyBase analyzer c target]: the checker reports one base type for the
    class [c], and [target] is a declaration of that type's symbol which no
    class-like declaration precedes. *)
Inductive onlyBase (analyzer : Analyzer) (c : ClassLikeDeclaration) (target : Node)
    : Prop :=
| onlyBase_intro (t : TsType) (before after : list Node) :
    getBaseTypes (getTypeChecker analyzer)
      (getTypeAtLocation (getTypeChecker analyzer) (ClassLike c)) = [t] ->
    getSymbol t ≫= getDeclarations = Some (before ++ target :: after) ->
    Forall (fun d => isClassLike d = false) before ->
    onlyBase analyzer c target.

(** [extendsHTMLElement analyzer n c]: the class [c] extends the interface
    [HTMLElement] through [n] levels of inheritance, [n >= 1]. *)
Inductive extendsHTMLElement (analyzer : Analyzer)
    : nat -> ClassLikeDeclaration -> Prop :=
| extends_direct (c : ClassLikeDeclaration) :
    onlyBase analyzer c (InterfaceDeclaration "HTMLElement") ->
    extendsHTMLElement analyzer 1 c
| extends_step (n : nat) (c d : ClassLikeDeclaration) :
    onlyBase analyzer c (ClassLike d) ->
    extendsHTMLElement analyzer n d ->
    extendsHTMLElement analyzer (S n) c.

(** [baseDeclaration analyzer d node]: [node] is a class without a tag name
    of its own and [d] is a declaration of the symbol of one of the base
    types the checker reports for it: the nodes that
    [isCustomElementSubclass] can go on to from [node]. The base types are
    not circular from [node] when [node] is accessible for this relation. *)
Inductive baseDeclaration (analyzer : Analyzer) (d : Node) : Node -> Prop :=
| baseDeclaration_intro (c : ClassLikeDeclaration) (t : TsType)
    (declarations : list Node) :
    getTagName c = None ->
    t ∈ getBaseTypes (getTypeChecker analyzer)
          (getTypeAtLocation (getTypeChecker analyzer) (ClassLike c)) ->
    getSymbol t ≫= getDeclarations = Some declarations ->
    d ∈ declarations ->
    baseDeclaration analyzer d (ClassLike c).

(** ** Members, as the declaration lists them *)

Section MemberLists.
Context `{Imports}.

(** A method declaration without a body: an overload signature. *)
Definition isOverloadSignature (node : ClassElement) : bool :=
  match node with
  | Method m => negb (bool_decide (is_Some (methodBody m)))
  | _ => false
  end.

(** A method declaration with a body and the given staticness. *)
Definition isImplementation (isStatic : bool) (m : MethodDeclaration) : bool :=
  bool_decide (is_Some (methodBody m))
  && Bool.eqb (hasStaticModifier (ClassMember (Method m))) isStatic.

(** The implementations of the given staticness under [name], in the order of
    the declaration. *)
Definition implementationsOf (isStatic : bool) (name : string)
    (l : list ClassElement) : list MethodDeclaration :=
  omap (fun node =>
          match node with
          | Method m =>
              if isImplementation isStatic m
                 && String.eqb (nameText (methodName m)) name
              then Some m else None
          | _ => None
          end) l.

(** The entry [getClassMembers] makes of an implementation. *)
Definition implementationEntry (analyzer : Analyzer) (m : MethodDeclaration)
    : ClassMethod :=
  {| methodInfo := getMemberInfo (inl m);
     methodFunctionLikeInfo :=
       fst (getFunctionLikeInfo (ClassMember (Method m)) (nameText (methodName m))
              analyzer);
     methodJSDocInfo := fst (parseNodeJSDocInfo (ClassMember (Method m)) analyzer) |}.

(** What one member does to the method map of the given staticness. *)
Definition methodMapStep (analyzer : Analyzer) (isStatic : bool)
    (map : gmap string ClassMethod) (node : ClassElement)
    : gmap string ClassMethod :=
  match node with
  | Method m =>
      if isImplementation isStatic m
      then <[nameText (methodName m) := implementationEntry analyzer m]> map
      else map
  | _ => map
  end.

(** The names of the property declarations of the given staticness that are
    named by an identifier, one per declaration. *)
Definition fieldNames (isStatic : bool) (l : list ClassElement) : list string :=
  omap (fun node =>
          match node with
          | Property p =>
              if isIdentifierName (propertyName p)
                 && Bool.eqb (hasStaticModifier (ClassMember (Property p))) isStatic
              then Some (nameText (propertyName p)) else None
          | _ => None
          end) l.

End MemberLists.

Definition identifierName (n : string) : PropertyName :=
  {| nameKind := IdentifierName; nameText := n |}.

Definition methodSignature (n : string) : ClassElement :=
  Method {| methodModifiers := []; methodName := identifierName n;
            methodBody := None |}.

Definition methodImplementation (modifiers : list ModifierKind) (n : string)
    : MethodDeclaration :=
  {| methodModifiers := modifiers; methodName := identifierName n;
     methodBody := Some (BlockNode "{}") |}.

Definition field (modifiers : list ModifierKind) (n : PropertyName)
    (initializer : option Initializer) : ClassElement :=
  Property {| propertyModifiers := modifiers; propertyName := n;
              propertyInitializer := initializer |}.

Definition stringInitializer (v : string) : Initializer :=
  {| initializerExpression := StringLiteral v;
     initializerText := "'" +:+ v +:+ "'" |}.

Definition numberInitializer (v : string) : Initializer :=
  {| initializerExpression := OtherExpression v; initializerText := v |}.

(** [class Overloaded { foo(x: string): void; foo(x: number): void;
    foo(x: any) {}  static create() {}  bar = 'hi';  ['computed'] = 3; }] *)
Definition classOverloaded : ClassLikeDeclaration :=
  {| classKind := ClassDeclarationKind;
     classModifiers := [ExportKeyword];
     className := Some "Overloaded";
     jsDocTags := [];
     heritageClauses := None;
     members :=
       [methodSignature "foo"; methodSignature "foo";
        Method (methodImplementation [] "foo");
        Method (methodImplementation [StaticKeyword] "create");
        field [] (identifierName "bar") (Some (stringInitializer "hi"));
        field [] {| nameKind := ComputedPropertyName; nameText := "['computed']" |}
          (Some (numberInitializer "3"))];
     parent := sourceFileOf [] |}.

(** [class Twice { x = 1; x = 2; }] *)
Definition classTwice : ClassLikeDeclaration :=
  {| classKind := ClassDeclarationKind;
     classModifiers := [];
     className := Some "Twice";
     jsDocTags := [];
     heritageClauses := None;
     members := [field [] (identifierName "x") (Some (numberInitializer "1"));
                 field [] (identifierName "x") (Some (numberInitializer "2"))];
     parent := sourceFileOf [] |}.

(** [export class { }], without [default]. *)
Definition classUnnamed : ClassLikeDeclaration :=
  {| classKind := ClassDeclarationKind;
     classModifiers := [ExportKeyword];
     className := None;
     jsDocTags := [];
     heritageClauses := None;
     members := [];
     parent := sourceFileOf [] |}.

(** ** Contracts of the collaborators *)

(** The checker widens string literal types to [string], and prints [string]
    so. *)
Definition widensStringLiterals (checker : TypeChecker) : Prop :=
  forall t v,
    typeKind t = StringLiteralKind v ->
    typeKind (getBaseTypeOfLiteralType checker t) = StringKind.

Definition printsString (checker : TypeChecker) : Prop :=
  forall t, typeKind t = StringKind -> typeToString checker t = "string".

(** A package name that starts no absolute path, whatever follows it. *)
Definition relativeName (pathModule : PathModule) (packageName : string) : Prop :=
  forall rest, isAbsolute pathModule (packageName +:+ rest) = false.

(** The language service has parsed at no version beyond the counter: what
    holds initially and after every [parseType]. *)
Definition serviceFresh (st : State) : Prop :=
  match service st with
  | Some cache => (cachedVersion cache <= contentsId st)%N
  | None => True
  end.

(** [/** @deprecated */ bar = 'hi';] *)
Definition fieldBar : ClassElement :=
  field [] (identifierName "bar") (Some (stringInitializer "hi")).

(** ** Further classes and predicates *)

(** [child] is a statement [customElements.define (tag, ctor, ...)], the tag
    written as a string literal or as a template literal without
    substitutions. *)
Definition isDefineCallFor (ctor tag : string) (child : ChildNode) : Prop :=
  exists tagNameArg rest,
    child
    = ExpressionStatement
        (CallExpression
           (PropertyAccessExpression (Identifier "customElements")
              (Identifier "define"))
           (tagNameArg :: Identifier ctor :: rest))
    /\ (tagNameArg = StringLiteral tag
        \/ tagNameArg = NoSubstitutionTemplateLiteral tag).

(** A class with two [customElement] tags, the first without a comment, and
    two define calls. *)
Definition classTwoTags : ClassLikeDeclaration :=
  {| classKind := ClassDeclarationKind;
     classModifiers := [];
     className := Some "XFoo";
     jsDocTags := [{| tagName := "customElement"; comment := None |};
                   {| tagName := "customElement";
                      comment := Some (CommentText "x-foo") |}];
     heritageClauses := None;
     members := [];
     parent := sourceFileOf [customElementsDefine "x-one" "XFoo";
                             OtherChild "ClassDeclaration";
                             customElementsDefine "x-two" "XFoo";
                             customElementsDefine "x-other" "Other";
                             OtherChild "EndOfFileToken"] |}.

(** [class XBar extends HTMLElement {}] followed by two define calls. *)
Definition classDefined : ClassLikeDeclaration :=
  {| classKind := ClassDeclarationKind;
     classModifiers := [];
     className := Some "XBar";
     jsDocTags := [{| tagName := "summary"; comment := Some (CommentText "A bar") |}];
     heritageClauses := Some [extendsClauseOf ["HTMLElement"]];
     members := [];
     parent := sourceFileOf [OtherChild "ClassDeclaration";
                             customElementsDefine "x-old" "XBar";
                             customElementsDefine "x-bar" "XBar";
                             OtherChild "EndOfFileToken"] |}.

(** [customElementEvidence analyzer node]: what makes a class a custom
    element: a tag name of its own, or a base type one of whose declarations
    is the interface [HTMLElement] or a class with such evidence. *)
Inductive customElementEvidence (analyzer : Analyzer) : Node -> Prop :=
| evidence_tagName (c : ClassLikeDeclaration) (tag : string) :
    getTagName c = Some tag ->
    customElementEvidence analyzer (ClassLike c)
| evidence_HTMLElement (c : ClassLikeDeclaration) (t : TsType)
    (declarations : list Node) (d : Node) :
    t ∈ getBaseTypes (getTypeChecker analyzer)
          (getTypeAtLocation (getTypeChecker analyzer) (ClassLike c)) ->
    getSymbol t ≫= getDeclarations = Some declarations ->
    d ∈ declarations ->
    isHTMLElementInterface d = true ->
    customElementEvidence analyzer (ClassLike c)
| evidence_base (c : ClassLikeDeclaration) (t : TsType)
    (declarations : list Node) (d : Node) :
    t ∈ getBaseTypes (getTypeChecker analyzer)
          (getTypeAtLocation (getTypeChecker analyzer) (ClassLike c)) ->
    getSymbol t ≫= getDeclarations = Some declarations ->
    d ∈ declarations ->
    customElementEvidence analyzer d ->
    customElementEvidence analyzer (ClassLike c).

(** A checker that reports a class as its own base type. *)
Definition classLoop : ClassLikeDeclaration := classNamed "Loop" "Loop".

Definition loopChecker : TypeChecker :=
  {| getTypeAtLocation := getTypeAtLocation exampleChecker;
     getBaseTypes := fun t =>
       if String.eqb (symbolNameOf t) "Loop" then [classType classLoop] else [];
     getBaseTypeOfLiteralType := getBaseTypeOfLiteralType exampleChecker;
     typeToString := typeToString exampleChecker;
     typeToTypeNode := typeToTypeNode exampleChecker;
     getTypeFromTypeNode := getTypeFromTypeNode exampleChecker |}.

Definition loopAnalyzer : Analyzer :=
  {| getTypeChecker := loopChecker; path := posix |}.

(** A computation that does nothing to the state but add diagnostics: the
    ones recorded before stay, in their order, and the scratch buffer of
    [types.ts] is not touched. *)
Definition onlyAddsDiagnostics {A} (m : M A) : Prop :=
  forall st, exists ds, snd (m st) = withDiagnostics st ds.

(** [class Mixed extends Mixin(Base) implements Marker {}] *)
Definition classMixed : ClassLikeDeclaration :=
  {| classKind := ClassDeclarationKind;
     classModifiers := [];
     className := Some "Mixed";
     jsDocTags := [];
     heritageClauses :=
       Some [{| token := ImplementsKeyword;
                types := [{| typeExpression := Identifier "Marker" |}] |};
             {| token := ExtendsKeyword;
                types := [{| typeExpression :=
                               CallExpression (Identifier "Mixin")
                                 [Identifier "Base"] |}] |}];
     members := [];
     parent := sourceFileOf [] |}.

Section FieldLists.
Context `{Imports}.

(** The identifier-named property declarations of the given staticness under
    [name], in the order of the declaration. *)
Definition fieldsOf (isStatic : bool) (name : string) (l : list ClassElement)
    : list PropertyDeclaration :=
  omap (fun node =>
          match node with
          | Property p =>
              if isIdentifierName (propertyName p)
                 && Bool.eqb (hasStaticModifier (ClassMember (Property p))) isStatic
                 && String.eqb (nameText (propertyName p)) name
              then Some p else None
          | _ => None
          end) l.

(** The entry [getClassMembers] makes of a property declaration. *)
Definition fieldEntry (analyzer : Analyzer) (p : PropertyDeclaration) : ClassField :=
  {| fieldInfo := getMemberInfo (inr p);
     fieldDefault := initializerText <$> propertyInitializer p;
     fieldType :=
       fst (getTypeForNode (ClassMember (Property p)) analyzer initialState);
     fieldJSDocInfo := fst (parseNodeJSDocInfo (ClassMember (Property p)) analyzer) |}.

(** What one member does to the field map of the given staticness. *)
Definition fieldMapStep (analyzer : Analyzer) (isStatic : bool)
    (map : gmap string ClassField) (node : ClassElement) : gmap string ClassField :=
  match node with
  | Property p =>
      if isIdentifierName (propertyName p)
         && Bool.eqb (hasStaticModifier (ClassMember (Property p))) isStatic
      then <[nameText (propertyName p) := fieldEntry analyzer p]> map
      else map
  | _ => map
  end.

End FieldLists.

(** [/** @customElement x-anonymous */ export default class extends
    HTMLElement {}] *)
Definition classDefaultExport : ClassLikeDeclaration :=
  {| classKind := ClassDeclarationKind;
     classModifiers := [ExportKeyword; DefaultKeyword];
     className := None;
     jsDocTags := [{| tagName := "customElement";
                      comment := Some (CommentText "x-anonymous") |}];
     heritageClauses := Some [extendsClauseOf ["HTMLElement"]];
     members := [];
     parent := sourceFileOf [OtherChild "ClassDeclaration"] |}.

Section NamedTags.
Context `{Imports}.

(** What [parseNamedJSDocInfo] makes of the tags whose name is one of
    [names], in the order of the tags; a tag it cannot parse gives nothing. *)
Definition namedInfos (analyzer : Analyzer) (names : list string)
    (tags : list JSDocTag) : list NamedDescribed :=
  omap (fun tag =>
          if existsb (String.eqb (tagName tag)) names
          then fst (parseNamedJSDocInfo tag analyzer)
          else None) tags.

(** What one tag does to the map that the tags named [names] fill. *)
Definition namedStep (analyzer : Analyzer) (names : list string)
    (map : gmap string NamedDescribed) (tag : JSDocTag)
    : gmap string NamedDescribed :=
  if existsb (String.eqb (tagName tag)) names then
    match fst (parseNamedJSDocInfo tag analyzer) with
    | Some info => <[namedName info := info]> map
    | None => map
    end
  else map.

End NamedTags.

(** A class with documentation tags for slots and CSS properties. *)
Definition classDocumented : ClassLikeDeclaration :=
  {| classKind := ClassDeclarationKind;
     classModifiers := [];
     className := Some "Documented";
     jsDocTags := [{| tagName := "slot"; comment := Some (CommentText "header") |};
                   {| tagName := "Slot"; comment := Some (CommentText "ignored") |};
                   {| tagName := "cssProp"; comment := Some (CommentText "--a") |};
                   {| tagName := "cssProperty"; comment := Some (CommentText "--b") |};
                   {| tagName := "cssPart"; comment := Some (CommentText "label") |}];
     heritageClauses := None;
     members := [];
     parent := sourceFileOf [] |}.

Definition isTypeAliasDeclaration (node : Statement) : bool :=
  match node with TypeAliasDeclaration _ _ => true | _ => false end.

Section Visits.
Context `{Imports}.

(** The [ts.forEachChild (node, visit)] of [visit], as a function of its own:
    the children are visited in order, each with the references found so
    far. *)
Definition visitChildren (location : Node) (analyzer : Analyzer)
    : list TypeNode -> list Reference -> M (list Reference) :=
  fix forEachChild (nodes : list TypeNode) (references : list Reference)
      : M (list Reference) :=
    match nodes with
    | [] => ret references
    | child :: nodes' =>
        let* references := visit location analyzer child references in
        forEachChild nodes' references
    end.

Definition couldNotGetSymbol (location : Node) (name : string) : Diagnostic :=
  createDiagnostic
    {| node := location;
       message := "Could not get symbol for '" +:+ name +:+ "'.";
       category := None; code := None |}.

Definition expectedStringLiteral (argument : TypeNode) : Diagnostic :=
  createDiagnostic
    {| node := TypeSyntax argument;
       message := "Expected a string literal.";
       category := None; code := None |}.

Definition expectedStringSpecifier (literal : Expression) : Diagnostic :=
  createDiagnostic
    {| node := ExpressionNode literal;
       message := "Expected import specifier to be a string literal";
       category := None; code := None |}.

(** What a visit finds and what it reports depend neither on the references
    found so far nor on the state. *)
Definition visitsPurely (run : list Reference -> M (list Reference)) : Prop :=
  exists found ds, forall references st,
    run references st = (references ++ found, withDiagnostics st ds).

End Visits.

(** [import ('/repo/node_modules/lit/index.js').TemplateResult <Foo.Bar>] and
    [import (x).T <Foo>]. *)
Definition importOfLit : TypeNode :=
  ImportTypeNode (LiteralTypeNode (StringLiteral "/repo/node_modules/lit/index.js"))
    (Some (NameIdentifier "TemplateResult"))
    [TypeReferenceNode (QualifiedName (NameIdentifier "Foo") "Bar") []].

Definition importOfExpression : TypeNode :=
  ImportTypeNode (OtherTypeNode "TypeQuery" []) (Some (NameIdentifier "T"))
    [TypeReferenceNode (NameIdentifier "Foo") []].

(** [class XLog extends HTMLElement {}] followed by two define calls for it,
    a define call for another class and [console.log ('a', 'b')]. *)
Definition classLogged : ClassLikeDeclaration :=
  {| classKind := ClassDeclarationKind;
     classModifiers := [];
     className := Some "XLog";
     jsDocTags := [];
     heritageClauses := Some [extendsClauseOf ["HTMLElement"]];
     members := [];
     parent :=
       sourceFileOf
         [OtherChild "ClassDeclaration";
          customElementsDefine "x-old" "XLog";
          ExpressionStatement
            (CallExpression
               (PropertyAccessExpression (Identifier "customElements")
                  (Identifier "define"))
               [NoSubstitutionTemplateLiteral "x-log"; Identifier "XLog";
                OtherExpression "{}"]);
          customElementsDefine "x-other" "Other";
          ExpressionStatement
            (CallExpression
               (PropertyAccessExpression (Identifier "console") (Identifier "log"))
               [StringLiteral "a"; StringLiteral "b"]);
          OtherChild "EndOfFileToken"] |}.

(** A computation keeps a property of the state. *)
Definition keeps {A} (P : State -> Prop) (m : M A) : Prop :=
  forall st, P st -> P (snd (m st)).

(** ** An events module for the examples

    Modelled from the spec: [events.js] is not among the sources. Of a tag
    [@fires {MyDetail} my-event - fired when X] this [addEventsToMap] takes
    the type string between the braces and the name that follows them,
    resolves the type string with [getTypeForTypeString] and sets the event
    under its name, as sections 2, 4.3 and 8 describe. *)

Record FiredEvent : Type := {
  firedName : string;
  firedType : option AnalyzerType
}.

Fixpoint firstWord (s : string) : string :=
  match s with
  | EmptyString => EmptyString
  | String c s' => if isWhiteSpace c then EmptyString else String c (firstWord s')
  end.

Definition firesTypeString (c : string) : option string :=
  if String.prefix "{" c then
    match String.index 0 "}" c with
    | Some close => Some (substring 1 (close - 1) c)
    | None => None
    end
  else None.

Definition firesName (c : string) : string :=
  firstWord
    (trimStart
       match firesTypeString c with
       | Some typeString =>
           substring (String.length typeString + 2) (String.length c) c
       | None => c
       end).

Definition firesAddEventsToMap (tag : JSDocTag) (events : gmap string FiredEvent)
    (analyzer : Analyzer) : M (gmap string FiredEvent) :=
  match comment tag with
  | Some (CommentText c) =>
      let* type :=
        getTypeForTypeString (firesTypeString c) (OtherNode "JSDocTag") analyzer in
      ret (<[firesName c := {| firedName := firesName c; firedType := type |}]>
             events)
  | _ => ret events
  end.

(** The imports of the examples, with this events module. *)
Definition firesImports : Imports :=
  {| FunctionLikeInfo := string;
     NodeJSDocInfo := unit;
     Event := FiredEvent;
     LitElementDeclaration := unit;
     hasDefaultModifier := hasDefaultModifier;
     hasStaticModifier := hasStaticModifier;
     hasExportModifier := hasExportModifier;
     getPrivacy := getPrivacy;
     getReferenceForIdentifier := getReferenceForIdentifier;
     getImportReference := getImportReference;
     getReferenceForSymbol := getReferenceForSymbol;
     getSymbolForName := getSymbolForName;
     parseNodeJSDocInfo := parseNodeJSDocInfo;
     getFunctionLikeInfo := getFunctionLikeInfo;
     getPackageInfo := getPackageInfo;
     absoluteToPackage := absoluteToPackage;
     resolveExtension := resolveExtension;
     isLitElementSubclass := isLitElementSubclass;
     getLitElementDeclaration := getLitElementDeclaration;
     addEventsToMap := firesAddEventsToMap;
     parseNamedJSDocInfo := parseNamedJSDocInfo;
     parseSourceFile := parseSourceFile |}.

(** A custom element with the tag
    [@fires {MyDetail} my-event - fired when X]. *)
Definition classFiring : ClassLikeDeclaration :=
  {| classKind := ClassDeclarationKind;
     classModifiers := [];
     className := Some "XFiring";
     jsDocTags := [{| tagName := "customElement";
                      comment := Some (CommentText "x-firing") |};
                   {| tagName := "fires";
                      comment :=
                        Some (CommentText "{MyDetail} my-event - fired when X") |}];
     heritageClauses := Some [extendsClauseOf ["HTMLElement"]];
     members := [];
     parent := sourceFileOf [OtherChild "ClassDeclaration"] |}.

(** * Properties *)

(** ** Tag names *)

Lemma isCustomElementTag_spec (tag : JSDocTag) :
  isCustomElementTag tag = true <-> toLowerCase (tagName tag) = "customelement".
Proof. unfold isCustomElementTag. apply String.eqb_eq. Qed.

Lemma find_first {A} (f : A -> bool) (pre post : list A) (x : A) :
  Forall (fun y => f y = false) pre -> f x = true ->
  find f (pre ++ x :: post) = Some x.
Proof.
  induction 1 as [|y pre Hy _ IH]; intros Hx; simpl.
  - by rewrite Hx.
  - rewrite Hy. by apply IH.
Qed.

Lemma getTagName_jsdoc (node : ClassLikeDeclaration) (pre post : list JSDocTag)
    (tag : JSDocTag) (c : string) :
  jsDocTags node = pre ++ tag :: post ->
  Forall (fun t => toLowerCase (tagName t) <> "customelement") pre ->
  toLowerCase (tagName tag) = "customelement" ->
  comment tag = Some (CommentText c) ->
  getTagName node = Some (trim c).
Proof.
  intros Htags Hpre Htag Hcomment. unfold getTagName.
  rewrite Htags, (find_first isCustomElementTag pre post tag).
  - destruct tag as [n k]; simpl in *. by rewrite Hcomment.
  - eapply Forall_impl; [exact Hpre|]. intros t Ht; simpl in Ht.
    destruct (isCustomElementTag t) eqn:E; [|done].
    by apply isCustomElementTag_spec in E.
  - by apply isCustomElementTag_spec.
Qed.

Lemma defineCall_keeps (nodeName : option string) (found : string) (child : ChildNode) :
  is_Some (defineCall nodeName (Some found) child).
Proof.
  unfold defineCall.
  repeat (case_match; try done); eauto.
Qed.

Lemma fold_defineCall_keeps (nodeName : option string) (l : list ChildNode)
    (found : option string) :
  is_Some found -> is_Some (fold_left (defineCall nodeName) l found).
Proof.
  revert found. induction l as [|child l IH]; intros found [x ->]; simpl; [eauto|].
  apply IH, defineCall_keeps.
Qed.

Lemma defineCall_customElementsDefine (ctor tag : string) (found : option string) :
  defineCall (Some ctor) found (customElementsDefine tag ctor) = Some tag.
Proof.
  unfold defineCall, customElementsDefine; simpl.
  by rewrite bool_decide_eq_true_2.
Qed.

Lemma imperativeDefine_finds (node : ClassLikeDeclaration) (ctor tag : string) :
  className node = Some ctor ->
  customElementsDefine tag ctor ∈ children (parent node) ->
  is_Some (imperativeDefine node).
Proof.
  intros Hname Hin. unfold imperativeDefine. rewrite Hname.
  apply list_elem_of_split in Hin as (l1 & l2 & ->).
  rewrite fold_left_app. cbn [fold_left].
  apply fold_defineCall_keeps. rewrite defineCall_customElementsDefine. eauto.
Qed.

(** C10, as the code has it. [getTagName] matches the documentation tag
    under lower-case comparison, and consults the first match only: when the
    first tag of a class whose lower-cased name is [customelement] (whatever
    its capitals) has a plain string comment, [getTagName] returns that
    comment, trimmed. *)
Theorem getTagName_tag_case_insensitive (node : ClassLikeDeclaration)
    (pre post : list JSDocTag) (tag : JSDocTag) (c : string) :
  jsDocTags node = pre ++ tag :: post ->
  Forall (fun t => toLowerCase (tagName t) <> "customelement") pre ->
  toLowerCase (tagName tag) = "customelement" ->
  comment tag = Some (CommentText c) ->
  getTagName node = Some (trim c).
Proof. apply getTagName_jsdoc. Qed.

Lemma getTagName_tag_case_insensitive_witness :
  toLowerCase "CUSTOMELEMENT" = "customelement"
  /\ getTagName classTagged = Some "x-foo".
Proof.
  split; [reflexivity|].
  apply (getTagName_tag_case_insensitive classTagged
           [{| tagName := "summary"; comment := Some (CommentText "An element") |}]
           []
           {| tagName := "CUSTOMELEMENT"; comment := Some (CommentText " x-foo ") |}
           " x-foo ").
  - reflexivity.
  - constructor; [simpl; discriminate|constructor].
  - reflexivity.
  - reflexivity.
Defined.

(** C10, as stated, fails: [classTwoTags] carries a tag named
    [customElement] whose comment is the plain string [x-foo], after one of
    the same name without a comment, and [getTagName] does not return
    [x-foo]. *)
Lemma getTagName_not_every_tag :
  let tag := {| tagName := "customElement"; comment := Some (CommentText "x-foo") |} in
  tag ∈ jsDocTags classTwoTags
  /\ toLowerCase (tagName tag) = "customelement"
  /\ comment tag = Some (CommentText "x-foo")
  /\ getTagName classTwoTags <> Some (trim "x-foo").
Proof.
  intros tag. split; [unfold tag; simpl; set_solver|].
  split; [reflexivity|]. split; [reflexivity|]. vm_compute. discriminate.
Qed.

(** The three spellings of the tag, run. *)
Example getTagName_spellings :
  map (fun spelling =>
         getTagName
           {| classKind := ClassExpressionKind; classModifiers := [];
              className := None;
              jsDocTags := [{| tagName := spelling;
                               comment := Some (CommentText "my-element ") |}];
              heritageClauses := None; members := [];
              parent := sourceFileOf [] |})
      ["customelement"; "CustomElement"; "CUSTOMELEMENT"; "customElements"]
  = [Some "my-element"; Some "my-element"; Some "my-element"; None].
Proof. reflexivity. Qed.

(** C2, as the code has it. A class whose first [customElement]
    documentation tag (the first tag whose lower-cased name is
    [customelement]) holds a plain string comment, with a sibling
    [customElements.define('tag', C)] call whose tag differs: the scan of the
    siblings does find a tag name, and [getTagName] returns the trimmed
    comment of the documentation tag, not the tag of the call. *)
Theorem getTagName_documentation_tag_wins (node : ClassLikeDeclaration)
    (pre post : list JSDocTag) (tag : JSDocTag) (c ctor defined : string) :
  jsDocTags node = pre ++ tag :: post ->
  Forall (fun t => toLowerCase (tagName t) <> "customelement") pre ->
  toLowerCase (tagName tag) = "customelement" ->
  comment tag = Some (CommentText c) ->
  className node = Some ctor ->
  customElementsDefine defined ctor ∈ children (parent node) ->
  defined <> trim c ->
  is_Some (imperativeDefine node)
  /\ getTagName node = Some (trim c)
  /\ getTagName node <> Some defined.
Proof.
  intros Htags Hpre Htag Hcomment Hname Hin Hne.
  pose proof (getTagName_jsdoc node pre post tag c Htags Hpre Htag Hcomment) as Hget.
  split; [by eapply imperativeDefine_finds|].
  split; [done|]. rewrite Hget. congruence.
Qed.

Lemma getTagName_documentation_tag_wins_witness :
  imperativeDefine classTagged = Some "x-bar"
  /\ getTagName classTagged = Some "x-foo"
  /\ getTagName classTagged <> Some "x-bar".
Proof.
  split; [reflexivity|].
  apply (getTagName_documentation_tag_wins classTagged
           [{| tagName := "summary"; comment := Some (CommentText "An element") |}]
           []
           {| tagName := "CUSTOMELEMENT"; comment := Some (CommentText " x-foo ") |}
           " x-foo " "XFoo" "x-bar").
  - reflexivity.
  - constructor; [simpl; discriminate|constructor].
  - reflexivity.
  - reflexivity.
  - reflexivity.
  - simpl. set_solver.
  - simpl. discriminate.
Defined.

(** C2, as stated, fails: [classTwoTags] has a [customElement] tag with the
    plain string comment [x-foo] and a sibling define call for it with the
    tag [x-two], and the define call wins, because an earlier [customElement]
    tag has no comment. *)
Lemma getTagName_define_wins_over_later_tag :
  {| tagName := "customElement"; comment := Some (CommentText "x-foo") |}
    ∈ jsDocTags classTwoTags
  /\ toLowerCase "customElement" = "customelement"
  /\ className classTwoTags = Some "XFoo"
  /\ customElementsDefine "x-two" "XFoo" ∈ children (parent classTwoTags)
  /\ "x-two" <> trim "x-foo"
  /\ getTagName classTwoTags = Some "x-two"
  /\ getTagName classTwoTags <> Some (trim "x-foo").
Proof.
  split; [simpl; set_solver|]. split; [reflexivity|]. split; [reflexivity|].
  split; [simpl; set_solver|]. split; [vm_compute; discriminate|].
  split; [reflexivity|vm_compute; discriminate].
Qed.

(** ** Custom-element subclasses *)

Lemma some_first_true {A} (f : A -> option bool) (before after : list A) (x : A) :
  Forall (fun y => is_Some (f y)) before -> f x = Some true ->
  some f (before ++ x :: after) = Some true.
Proof.
  induction 1 as [|y before [b Hy] _ IH]; intros Hx; simpl.
  - by rewrite Hx.
  - rewrite Hy. destruct b; [done|]. by apply IH.
Qed.

Lemma isCustomElementSubclass_not_class (fuel : nat) (node : Node)
    (analyzer : Analyzer) :
  isClassLike node = false ->
  isCustomElementSubclass (S fuel) node analyzer = Some false.
Proof. by destruct node. Qed.

Lemma isCustomElementSubclass_class (fuel : nat) (c : ClassLikeDeclaration)
    (analyzer : Analyzer) :
  isCustomElementSubclass (S fuel) (ClassLike c) analyzer
  = match getTagName c with
    | Some _ => Some true
    | None =>
        some (fun t =>
                isCustomElementClassDeclarationWith
                  (isCustomElementSubclass fuel) t analyzer)
          (getBaseTypes (getTypeChecker analyzer)
             (getTypeAtLocation (getTypeChecker analyzer) (ClassLike c)))
    end.
Proof. reflexivity. Qed.

Lemma isCustomElementSubclass_onlyBase (fuel : nat) (c : ClassLikeDeclaration)
    (target : Node) (analyzer : Analyzer) :
  onlyBase analyzer c target ->
  (if isHTMLElementInterface target then Some true
   else isCustomElementSubclass (S fuel) target analyzer) = Some true ->
  isCustomElementSubclass (S (S fuel)) (ClassLike c) analyzer = Some true.
Proof.
  intros [t before after Hbase Hdecl Hbefore] Htarget.
  rewrite isCustomElementSubclass_class. destruct (getTagName c); [done|].
  rewrite Hbase. cbn [some].
  unfold isCustomElementClassDeclarationWith. rewrite Hdecl.
  rewrite some_first_true; [done| |exact Htarget].
  eapply Forall_impl; [exact Hbefore|]. intros d Hd; cbv beta in *.
  destruct (isHTMLElementInterface d); [eauto|].
  rewrite isCustomElementSubclass_not_class; eauto.
Qed.

Lemma isCustomElementSubclass_extends (analyzer : Analyzer) (n : nat)
    (c : ClassLikeDeclaration) :
  extendsHTMLElement analyzer n c ->
  forall fuel, n < fuel ->
  isCustomElementSubclass fuel (ClassLike c) analyzer = Some true.
Proof.
  induction 1 as [c Hbase|n c d Hbase Hd IH]; intros fuel Hfuel.
  - destruct fuel as [|[|fuel]]; [lia..|].
    by apply (isCustomElementSubclass_onlyBase _ _ (InterfaceDeclaration "HTMLElement")).
  - assert (1 <= n) by (destruct Hd; lia).
    destruct fuel as [|[|fuel]]; [lia..|].
    apply (isCustomElementSubclass_onlyBase _ _ (ClassLike d)); [done|].
    change (isHTMLElementInterface (ClassLike d)) with false. cbv iota.
    apply IH. lia.
Qed.

(** C1. A class whose only [extends] target is a class that extends the
    interface [HTMLElement] through [n >= 1] levels of inheritance is a custom
    element subclass, for every [n]: [isCustomElementSubclass] returns [true]
    once its nested calls may go [n + 2] deep. *)
Theorem isCustomElementSubclass_transitive (analyzer : Analyzer) (n : nat)
    (c d : ClassLikeDeclaration) (fuel : nat) :
  onlyBase analyzer c (ClassLike d) ->
  extendsHTMLElement analyzer n d ->
  n + 1 < fuel ->
  isCustomElementSubclass fuel (ClassLike c) analyzer = Some true.
Proof.
  intros Hbase Hd Hfuel.
  apply (isCustomElementSubclass_extends analyzer (S n)); [|lia].
  by eapply extends_step.
Qed.

Lemma onlyBase_classBase :
  onlyBase exampleAnalyzer classBase (InterfaceDeclaration "HTMLElement").
Proof.
  by apply (onlyBase_intro exampleAnalyzer classBase _ htmlElementType []
              [OtherNode "VariableDeclaration"]).
Qed.

Lemma onlyBase_classMiddle : onlyBase exampleAnalyzer classMiddle (ClassLike classBase).
Proof.
  by apply (onlyBase_intro exampleAnalyzer classMiddle _ (classType classBase) [] []).
Qed.

Lemma onlyBase_classFoo : onlyBase exampleAnalyzer classFoo (ClassLike classMiddle).
Proof.
  by apply (onlyBase_intro exampleAnalyzer classFoo _ (classType classMiddle) [] []).
Qed.

Lemma isCustomElementSubclass_transitive_witness :
  isCustomElementSubclass 4 (ClassLike classFoo) exampleAnalyzer = Some true.
Proof.
  apply (isCustomElementSubclass_transitive exampleAnalyzer 2 classFoo classMiddle 4).
  - exact onlyBase_classFoo.
  - apply (extends_step exampleAnalyzer 1 classMiddle classBase).
    + exact onlyBase_classMiddle.
    + apply extends_direct. exact onlyBase_classBase.
  - lia.
Defined.

(** ** Heritage *)

Lemma find_extendsClause (before after : list HeritageClause)
    (extendsClause : HeritageClause) :
  Forall (fun c => token c <> ExtendsKeyword) before ->
  token extendsClause = ExtendsKeyword ->
  find isExtendsClause (before ++ extendsClause :: after) = Some extendsClause.
Proof.
  intros Hbefore Htoken. apply find_first.
  - eapply Forall_impl; [exact Hbefore|]. intros c Hc; simpl in Hc.
    unfold isExtendsClause. by destruct (token c).
  - unfold isExtendsClause. by rewrite Htoken.
Qed.

Section Heritage.
Context `{Imports}.

(** C3. When the [extends] clause of a class lists exactly two type
    expressions, [getHeritage] returns an absent [superClass] and no mixins,
    and adds exactly one diagnostic, leaving the rest of the state alone. *)
Theorem getHeritage_two_extends_types (declaration : ClassLikeDeclaration)
    (analyzer : Analyzer) (before after : list HeritageClause)
    (extendsClause : HeritageClause) (t1 t2 : ExpressionWithTypeArguments)
    (st : State) :
  heritageClauses declaration = Some (before ++ extendsClause :: after) ->
  Forall (fun c => token c <> ExtendsKeyword) before ->
  token extendsClause = ExtendsKeyword ->
  types extendsClause = [t1; t2] ->
  getHeritage declaration analyzer st
  = ({| mixins := []; superClass := None |},
     withDiagnostics st [multipleExtendsTypes extendsClause])
  /\ length (diagnostics (snd (getHeritage declaration analyzer st)))
     = S (length (diagnostics st)).
Proof.
  intros Hclauses Hbefore Htoken Htypes.
  assert (getHeritage declaration analyzer st
          = ({| mixins := []; superClass := None |},
             withDiagnostics st [multipleExtendsTypes extendsClause])) as Hrun.
  { unfold getHeritage. rewrite Hclauses. simpl.
    rewrite find_extendsClause by done. by rewrite Htypes. }
  split; [exact Hrun|]. rewrite Hrun; simpl. rewrite length_app; simpl. lia.
Qed.

End Heritage.

Lemma getHeritage_two_extends_types_witness :
  let declaration :=
    {| classKind := ClassDeclarationKind; classModifiers := [];
       className := Some "A"; jsDocTags := [];
       heritageClauses :=
         Some [{| token := ImplementsKeyword; types := [] |};
               extendsClauseOf ["B"; "C"]];
       members := []; parent := sourceFileOf [] |} in
  getHeritage declaration exampleAnalyzer initialState
  = ({| mixins := []; superClass := None |},
     withDiagnostics initialState [multipleExtendsTypes (extendsClauseOf ["B"; "C"])]).
Proof.
  intros declaration.
  apply (getHeritage_two_extends_types declaration exampleAnalyzer
           [{| token := ImplementsKeyword; types := [] |}] []
           (extendsClauseOf ["B"; "C"])
           {| typeExpression := Identifier "B" |}
           {| typeExpression := Identifier "C" |} initialState).
  - reflexivity.
  - constructor; [simpl; discriminate|constructor].
  - reflexivity.
  - reflexivity.
Defined.

(** ** Class members *)

Lemma bind_run {A B} (m : M A) (k : A -> M B) (st : State) :
  bind m k st = k (fst (m st)) (snd (m st)).
Proof. unfold bind. by destruct (m st). Qed.

Lemma forEach_cons {A B} (f : B -> A -> M B) (x : A) (l : list A) (acc : B)
    (st : State) :
  forEach f (x :: l) acc st = forEach f l (fst (f acc x st)) (snd (f acc x st)).
Proof. simpl. by rewrite bind_run. Qed.

Lemma forEach_app {A B} (f : B -> A -> M B) (l1 l2 : list A) (acc : B) (st : State) :
  forEach f (l1 ++ l2) acc st
  = forEach f l2 (fst (forEach f l1 acc st)) (snd (forEach f l1 acc st)).
Proof.
  revert acc st. induction l1 as [|x l1 IH]; intros acc st; [done|].
  rewrite <- app_comm_cons, !forEach_cons. apply IH.
Qed.

Section Members.
Context `{Imports}.
Implicit Types (analyzer : Analyzer) (maps : ClassMembers) (st : State)
  (node : ClassElement) (l : list ClassElement) (m : MethodDeclaration)
  (p : PropertyDeclaration) (name : string).

Lemma addMember_signature analyzer maps m st :
  methodBody m = None -> addMember analyzer maps (Method m) st = (maps, st).
Proof. intros Hbody. unfold addMember. by rewrite Hbody. Qed.

Lemma addMember_methodMaps analyzer maps node st :
  methodMap (fst (addMember analyzer maps node st))
  = methodMapStep analyzer false (methodMap maps) node
  /\ staticMethodMap (fst (addMember analyzer maps node st))
     = methodMapStep analyzer true (staticMethodMap maps) node.
Proof.
  destruct node as [m|p|k]; [| |done].
  - unfold addMember, methodMapStep, isImplementation.
    destruct (methodBody m) as [b|] eqn:Hbody.
    + rewrite !bind_run. rewrite bool_decide_eq_true_2 by eauto.
      unfold ret, emit, implementationEntry; simpl.
      by destruct (hasStaticModifier (ClassMember (Method m))).
    + rewrite bool_decide_eq_false_2 by (by intros [? ?]). done.
  - unfold addMember, methodMapStep.
    destruct (isIdentifierName (propertyName p)); cbn [negb].
    + rewrite !bind_run. unfold ret; simpl.
      by destruct (hasStaticModifier (ClassMember (Property p))).
    + by rewrite bind_run.
Qed.

Lemma forEach_addMember_methodMaps analyzer l maps st :
  methodMap (fst (forEach (addMember analyzer) l maps st))
  = fold_left (methodMapStep analyzer false) l (methodMap maps)
  /\ staticMethodMap (fst (forEach (addMember analyzer) l maps st))
     = fold_left (methodMapStep analyzer true) l (staticMethodMap maps).
Proof.
  revert maps st. induction l as [|node l IH]; intros maps st; [done|].
  rewrite forEach_cons. cbn [fold_left].
  destruct (addMember_methodMaps analyzer maps node st) as [<- <-]. apply IH.
Qed.

(** The entry under a name is that of the last implementation under it. *)
Lemma fold_methodMapStep_lookup analyzer (isStatic : bool) l name :
  fold_left (methodMapStep analyzer isStatic) l ∅ !! name
  = implementationEntry analyzer <$> last (implementationsOf isStatic name l).
Proof.
  induction l as [|node l IH] using rev_ind; [done|].
  rewrite fold_left_app. cbn [fold_left]. unfold implementationsOf in *.
  rewrite omap_app; simpl.
  destruct node as [m|p|k]; simpl; rewrite ?app_nil_r; try done.
  destruct (isImplementation isStatic m); simpl; rewrite ?app_nil_r; [|done].
  destruct (String.eqb_spec (nameText (methodName m)) name) as [->|Hne].
  - by rewrite lookup_insert_eq, last_snoc.
  - rewrite lookup_insert_ne by done. by rewrite app_nil_r.
Qed.

Lemma elem_of_implementationsOf (isStatic : bool) name l m :
  m ∈ implementationsOf isStatic name l ->
  Method m ∈ l /\ is_Some (methodBody m)
  /\ hasStaticModifier (ClassMember (Method m)) = isStatic
  /\ nameText (methodName m) = name.
Proof.
  unfold implementationsOf. rewrite list_elem_of_omap.
  intros ([m'|p|k] & Hin & Hsome); try done.
  destruct (isImplementation isStatic m') eqn:Himpl; simpl in Hsome; [|done].
  destruct (String.eqb_spec (nameText (methodName m')) name); [|done].
  simplify_eq. unfold isImplementation in Himpl.
  apply andb_true_iff in Himpl as [Hbody Hstatic].
  apply bool_decide_eq_true in Hbody. apply Bool.eqb_prop in Hstatic. done.
Qed.

Lemma forEach_addMember_signatures analyzer l maps st :
  forEach (addMember analyzer)
    (filter (fun node => negb (isOverloadSignature node)) l) maps st
  = forEach (addMember analyzer) l maps st.
Proof.
  revert maps st. induction l as [|node l IH]; intros maps st; [done|].
  destruct (isOverloadSignature node) eqn:Hnode.
  - rewrite filter_cons_False by (rewrite Hnode; simpl; tauto).
    rewrite forEach_cons. destruct node as [m|p|k]; try done.
    rewrite addMember_signature; [apply IH|].
    simpl in Hnode. destruct (methodBody m); [|done].
    by rewrite bool_decide_eq_true_2 in Hnode by eauto.
  - rewrite filter_cons_True by (rewrite Hnode; simpl; tauto).
    rewrite !forEach_cons. apply IH.
Qed.

(** C4. [getClassMembers] never puts an overload signature into a method map:
    a signature leaves the maps and the state as they are, so the result is
    that of the declaration without its signatures; the entry under a name is
    the one made of the last implementation of that name and staticness, and
    every entry of either map is made of a method declaration that has a
    body. For an overloaded method, whose implementation is the one
    declaration with a body under its name, the entry is the
    implementation's. *)
Theorem getClassMembers_excludes_overload_signatures
    (declaration : ClassLikeDeclaration) analyzer st :
  let result := fst (getClassMembers declaration analyzer st) in
  (forall maps m st', methodBody m = None ->
     addMember analyzer maps (Method m) st' = (maps, st'))
  /\ forEach (addMember analyzer)
       (filter (fun node => negb (isOverloadSignature node)) (members declaration))
       noMembers st
     = getClassMembers declaration analyzer st
  /\ (forall name,
        methodMap result !! name
        = implementationEntry analyzer
            <$> last (implementationsOf false name (members declaration)))
  /\ (forall name,
        staticMethodMap result !! name
        = implementationEntry analyzer
            <$> last (implementationsOf true name (members declaration)))
  /\ (forall name entry,
        methodMap result !! name = Some entry
        \/ staticMethodMap result !! name = Some entry ->
        exists m, Method m ∈ members declaration /\ is_Some (methodBody m)
                  /\ nameText (methodName m) = name
                  /\ entry = implementationEntry analyzer m)
  /\ (forall name m,
        implementationsOf false name (members declaration) = [m] ->
        methodMap result !! name = Some (implementationEntry analyzer m))
  /\ (forall name m,
        implementationsOf true name (members declaration) = [m] ->
        staticMethodMap result !! name = Some (implementationEntry analyzer m)).
Proof.
  intros result.
  assert (forall name,
            methodMap result !! name
            = implementationEntry analyzer
                <$> last (implementationsOf false name (members declaration)))
    as Hinstance.
  { intros name. unfold result, getClassMembers.
    destruct (forEach_addMember_methodMaps analyzer (members declaration)
                noMembers st) as [-> _].
    apply fold_methodMapStep_lookup. }
  assert (forall name,
            staticMethodMap result !! name
            = implementationEntry analyzer
                <$> last (implementationsOf true name (members declaration)))
    as Hstatic.
  { intros name. unfold result, getClassMembers.
    destruct (forEach_addMember_methodMaps analyzer (members declaration)
                noMembers st) as [_ ->].
    apply fold_methodMapStep_lookup. }
  split; [apply addMember_signature|].
  split; [apply forEach_addMember_signatures|].
  split; [exact Hinstance|]. split; [exact Hstatic|].
  split; [|split].
  - intros name entry [Hentry|Hentry];
      [rewrite Hinstance in Hentry|rewrite Hstatic in Hentry];
      apply fmap_Some in Hentry as (m & Hlast%last_Some_elem_of & ->);
      apply elem_of_implementationsOf in Hlast as (? & ? & ? & ?); eauto.
  - intros name m Hm. by rewrite Hinstance, Hm.
  - intros name m Hm. by rewrite Hstatic, Hm.
Qed.

End Members.

(** The overloaded method of [classOverloaded], run: one entry under [foo],
    the implementation's, and the two signatures nowhere. *)
Example getClassMembers_overloaded :
  let result := fst (getClassMembers classOverloaded exampleAnalyzer initialState) in
  map_to_list (methodMap result)
  = [("foo", implementationEntry exampleAnalyzer (methodImplementation [] "foo"))]
  /\ map_to_list (staticMethodMap result)
     = [("create",
         implementationEntry exampleAnalyzer
           (methodImplementation [StaticKeyword] "create"))].
Proof. vm_compute. done. Qed.

Lemma size_list_to_set_remove_dups (l : list string) :
  size (list_to_set l : gset string) = length (remove_dups l).
Proof.
  rewrite <- (size_list_to_set (C := gset string) (remove_dups l))
    by apply NoDup_remove_dups.
  f_equal. apply set_eq. intros x.
  by rewrite !elem_of_list_to_set, elem_of_remove_dups.
Qed.

Section Fields.
Context `{Imports}.
Implicit Types (analyzer : Analyzer) (maps : ClassMembers) (st : State)
  (node : ClassElement) (l : list ClassElement) (p : PropertyDeclaration).

Lemma addMember_unsupported analyzer maps p st :
  isIdentifierName (propertyName p) = false ->
  addMember analyzer maps (Property p) st
  = (maps, withDiagnostics st [unsupportedPropertyName (Property p)]).
Proof. intros Hname. unfold addMember. by rewrite Hname. Qed.

Lemma fieldNames_cons (isStatic : bool) node l :
  fieldNames isStatic (node :: l) = fieldNames isStatic [node] ++ fieldNames isStatic l.
Proof. unfold fieldNames. by rewrite <- omap_app. Qed.

Lemma addMember_fieldMaps_dom analyzer maps node st :
  dom (fieldMap (fst (addMember analyzer maps node st)))
  =@{gset string} dom (fieldMap maps) ∪ list_to_set (fieldNames false [node])
  /\ dom (staticFieldMap (fst (addMember analyzer maps node st)))
     =@{gset string} dom (staticFieldMap maps) ∪ list_to_set (fieldNames true [node]).
Proof.
  destruct node as [m|p|k]; unfold addMember, fieldNames.
  - destruct (methodBody m).
    + rewrite !bind_run. unfold ret; simpl.
      destruct (hasStaticModifier (ClassMember (Method m))); simpl;
        split; set_solver.
    + simpl. split; set_solver.
  - simpl omap. destruct (isIdentifierName (propertyName p)); cbn [negb andb].
    + rewrite !bind_run. unfold ret; simpl.
      destruct (hasStaticModifier (ClassMember (Property p))); simpl;
        rewrite dom_insert_L; split; set_solver.
    + rewrite bind_run. simpl. split; set_solver.
  - simpl. split; set_solver.
Qed.

Lemma forEach_addMember_fieldMaps_dom analyzer l maps st :
  dom (fieldMap (fst (forEach (addMember analyzer) l maps st)))
  =@{gset string} dom (fieldMap maps) ∪ list_to_set (fieldNames false l)
  /\ dom (staticFieldMap (fst (forEach (addMember analyzer) l maps st)))
     =@{gset string} dom (staticFieldMap maps) ∪ list_to_set (fieldNames true l).
Proof.
  revert maps st. induction l as [|node l IH]; intros maps st.
  - simpl. split; set_solver.
  - rewrite forEach_cons, !(fieldNames_cons _ node l), !list_to_set_app_L.
    destruct (IH (fst (addMember analyzer maps node st))
                (snd (addMember analyzer maps node st))) as [-> ->].
    destruct (addMember_fieldMaps_dom analyzer maps node st) as [-> ->].
    split; set_solver.
Qed.

(** C5, as the code has it. A property declaration whose name is not an
    identifier adds the warning diagnostic of code [UNSUPPORTED] and no entry
    to any map. The keys of each field map are the names of the
    identifier-named property declarations of its staticness, so its size is
    the number of distinct names among them: it is their count when no two of
    them share a name. *)
Theorem getClassMembers_field_maps (declaration : ClassLikeDeclaration)
    analyzer st :
  let result := fst (getClassMembers declaration analyzer st) in
  let instanceNames := fieldNames false (members declaration) in
  let staticNames := fieldNames true (members declaration) in
  (forall maps p st',
     isIdentifierName (propertyName p) = false ->
     addMember analyzer maps (Property p) st'
     = (maps, withDiagnostics st' [unsupportedPropertyName (Property p)]))
  /\ (forall node, exists options,
        unsupportedPropertyName node = createDiagnostic options
        /\ category options = Some Warning /\ code options = Some UNSUPPORTED)
  /\ dom (fieldMap result) =@{gset string} list_to_set instanceNames
  /\ dom (staticFieldMap result) =@{gset string} list_to_set staticNames
  /\ size (fieldMap result) = length (remove_dups instanceNames)
  /\ size (staticFieldMap result) = length (remove_dups staticNames)
  /\ (NoDup instanceNames -> size (fieldMap result) = length instanceNames)
  /\ (NoDup staticNames -> size (staticFieldMap result) = length staticNames).
Proof.
  intros result instanceNames staticNames.
  destruct (forEach_addMember_fieldMaps_dom analyzer (members declaration)
              noMembers st) as [Hinstance Hstatic].
  fold (getClassMembers declaration analyzer st) in Hinstance, Hstatic.
  fold result instanceNames staticNames in Hinstance, Hstatic.
  simpl in Hinstance, Hstatic. rewrite dom_empty_L, union_empty_l_L in *.
  assert (size (fieldMap result) = length (remove_dups instanceNames)) as Hsize.
  { by rewrite <- size_list_to_set_remove_dups, <- Hinstance, size_dom. }
  assert (size (staticFieldMap result) = length (remove_dups staticNames))
    as Hsize'.
  { by rewrite <- size_list_to_set_remove_dups, <- Hstatic, size_dom. }
  split; [apply addMember_unsupported|].
  split; [intros node; by eexists|].
  repeat split; try done.
  - intros Hnodup. by rewrite <- size_dom, Hinstance, size_list_to_set.
  - intros Hnodup. by rewrite <- size_dom, Hstatic, size_list_to_set.
Qed.

End Fields.

(** C5, as stated, fails: [class Twice { x = 1; x = 2; }] has two
    identifier-named instance property declarations and one entry in its
    field map. *)
Lemma fieldMap_size_not_declaration_count :
  let result := fst (getClassMembers classTwice exampleAnalyzer initialState) in
  length (fieldNames false (members classTwice)) = 2
  /\ size (fieldMap result) = 1
  /\ size (fieldMap result) <> length (fieldNames false (members classTwice)).
Proof. vm_compute. repeat split; congruence. Qed.

(** The computed key of [classOverloaded], run: one diagnostic, and the field
    map holds [bar] alone, with the text of its initializer and the widened
    type. *)
Example getClassMembers_computed_key :
  let run := getClassMembers classOverloaded exampleAnalyzer initialState in
  diagnostics (snd run)
  = [unsupportedPropertyName
       (field [] {| nameKind := ComputedPropertyName; nameText := "['computed']" |}
          (Some (numberInitializer "3")))]
  /\ (fun entry => (fieldDefault entry, text (fieldType entry)))
       <$> fieldMap (fst run) !! "bar"
     = Some (Some "'hi'", "string")
  /\ size (fieldMap (fst run)) = 1.
Proof. vm_compute. done. Qed.

(** ** Declarations and fallbacks *)

Section Fallbacks.
Context `{Imports}.

Lemma getClassDeclarationName_run (declaration : ClassLikeDeclaration)
    (analyzer : Analyzer) (st : State) :
  getClassDeclarationName declaration analyzer st
  = match className declaration with
    | Some text => (Some text, st)
    | None =>
        if hasDefaultModifier (ClassLike declaration) then (Some "default", st)
        else (None, withDiagnostics st [unnamedClass declaration])
    end.
Proof.
  unfold getClassDeclarationName.
  destruct (className declaration); [done|].
  by destruct (hasDefaultModifier (ClassLike declaration)).
Qed.

Lemma some_is_Some {A} (f : A -> option bool) (l : list A) :
  (forall x, x ∈ l -> is_Some (f x)) -> is_Some (some f l).
Proof.
  induction l as [|x l IH]; intros Hl; simpl; [eauto|].
  destruct (Hl x) as [[|] ->]; [set_solver|eauto|].
  apply IH. intros y Hy. apply Hl. set_solver.
Qed.

(** Depths that suffice for each element of a list have a depth that
    suffices for all of them. *)
Lemma depth_for_all {A} (P : nat -> A -> Prop) (l : list A) :
  (forall x, x ∈ l -> exists depth, forall fuel, depth <= fuel -> P fuel x) ->
  exists depth, forall fuel, depth <= fuel -> forall x, x ∈ l -> P fuel x.
Proof.
  induction l as [|x l IH]; intros Hl.
  - exists 0. intros fuel _ x Hx. by apply elem_of_nil in Hx.
  - destruct (Hl x) as [depth1 H1]; [set_solver|].
    destruct IH as [depth2 H2]; [intros y Hy; apply Hl; set_solver|].
    exists (depth1 `max` depth2). intros fuel Hfuel y [->|Hy]%elem_of_cons.
    + apply H1. lia.
    + apply H2; [lia|done].
Qed.

(** Where the base types are not circular, the classification returns once
    its nested calls may go deep enough. *)
Lemma isCustomElementSubclass_returns (analyzer : Analyzer) (node : Node) :
  Acc (baseDeclaration analyzer) node ->
  exists depth, forall fuel,
    depth <= fuel -> is_Some (isCustomElementSubclass fuel node analyzer).
Proof.
  induction 1 as [node _ IH].
  destruct (isClassLike node) eqn:Hclass.
  - destruct node as [c| | | | | |]; try done.
    destruct (getTagName c) as [tag|] eqn:Htag.
    { exists 1. intros [|fuel] Hfuel; [lia|].
      rewrite isCustomElementSubclass_class, Htag. eauto. }
    set (baseTypes := getBaseTypes (getTypeChecker analyzer)
                        (getTypeAtLocation (getTypeChecker analyzer) (ClassLike c))).
    destruct (depth_for_all
                (fun fuel t =>
                   is_Some (isCustomElementClassDeclarationWith
                              (isCustomElementSubclass fuel) t analyzer))
                baseTypes) as [depth Hdepth].
    { intros t Ht. unfold isCustomElementClassDeclarationWith.
      destruct (getSymbol t ≫= getDeclarations) as [declarations|] eqn:Hdeclarations;
        [|exists 0; eauto].
      destruct (depth_for_all
                  (fun fuel d =>
                     is_Some (if isHTMLElementInterface d then Some true
                              else isCustomElementSubclass fuel d analyzer))
                  declarations) as [depth Hdepth].
      { intros d Hd.
        destruct (IH d) as [depth Hdepth]; [by econstructor|].
        exists depth. intros fuel Hfuel.
        destruct (isHTMLElementInterface d); [eauto|by apply Hdepth]. }
      exists depth. intros fuel Hfuel. apply some_is_Some. intros d Hd.
      by apply Hdepth. }
    exists (S depth). intros [|fuel] Hfuel; [lia|].
    rewrite isCustomElementSubclass_class, Htag. apply some_is_Some.
    intros t Ht. apply Hdepth; [lia|done].
  - exists 1. intros [|fuel] Hfuel; [lia|].
    rewrite isCustomElementSubclass_not_class by done. eauto.
Qed.

(** C6, as the code has it. [getClassDeclarationInfo] returns a declaration
    info, whose factory is [getClassDeclaration], and adds no diagnostic when
    the class has a name or is a default export; for a class declaration with
    neither it adds the diagnostic [unnamedClass] and returns nothing, so no
    model is made of that class. The factory has no model only when the
    classification has no result, whatever diagnostics are added, and where
    the base types the checker reports are not circular it makes a model once
    the nested calls of the classification may go deep enough. Where
    [getClassMembers], [getSuperClass], [getHeritage], [getTypeForType] and
    [getTypeForTypeString] add a diagnostic of their own, they return the
    absent or empty fallback: [getClassMembers] hands on its maps without an
    entry for the property and goes on with the members that follow. *)
Theorem getClassDeclarationInfo_fallbacks (declaration : ClassLikeDeclaration)
    (analyzer : Analyzer) (st : State) :
  (className declaration = None ->
   hasDefaultModifier (ClassLike declaration) = false ->
   getClassDeclarationInfo declaration analyzer st
   = (None, withDiagnostics st [unnamedClass declaration]))
  /\ (forall name,
        className declaration = Some name
        \/ (className declaration = None
            /\ hasDefaultModifier (ClassLike declaration) = true
            /\ name = "default") ->
        exists info,
          getClassDeclarationInfo declaration analyzer st = (Some info, st)
          /\ declarationName info = name
          /\ declarationNode info = declaration
          /\ factory info
             = (fun fuel => getClassDeclaration fuel declaration name analyzer None))
  /\ (forall fuel name docNode st',
        fst (getClassDeclaration fuel declaration name analyzer docNode st') = None
        <-> isLitElementSubclass (ClassLike declaration) analyzer = false
            /\ isCustomElementSubclass fuel (ClassLike declaration) analyzer = None)
  /\ (Acc (baseDeclaration analyzer) (ClassLike declaration) ->
      exists depth, forall fuel name docNode st',
        depth <= fuel ->
        is_Some (fst (getClassDeclaration fuel declaration name analyzer docNode st')))
  /\ (forall before after p st',
        members declaration = before ++ Property p :: after ->
        isIdentifierName (propertyName p) = false ->
        getClassMembers declaration analyzer st'
        = let run := forEach (addMember analyzer) before noMembers st' in
          forEach (addMember analyzer) after (fst run)
            (withDiagnostics (snd run) [unsupportedPropertyName (Property p)]))
  /\ (forall expression st',
        isIdentifier expression = false ->
        getSuperClass expression analyzer st'
        = (None, withDiagnostics st' [notConcreteSuperclass expression]))
  /\ (forall before after extendsClause st',
        heritageClauses declaration = Some (before ++ extendsClause :: after) ->
        Forall (fun c => token c <> ExtendsKeyword) before ->
        token extendsClause = ExtendsKeyword ->
        length (types extendsClause) <> 1 ->
        getHeritage declaration analyzer st'
        = ({| mixins := []; superClass := None |},
           withDiagnostics st' [multipleExtendsTypes extendsClause]))
  /\ (forall type location st',
        typeToTypeNode (getTypeChecker analyzer)
          (getBaseTypeOfLiteralType (getTypeChecker analyzer) type) location = None ->
        exists result,
          getTypeForType type location analyzer st'
          = (result, withDiagnostics st' [couldNotConvertType location])
          /\ getReferences result = ret [])
  /\ (forall typeString location st',
        fst (parseType typeString st') = None ->
        getTypeForTypeString (Some typeString) location analyzer st'
        = (None, withDiagnostics (snd (parseType typeString st'))
                   [failedToParseType location])).
Proof.
  assert (forall fuel name docNode st',
            fst (getClassDeclaration fuel declaration name analyzer docNode st') = None
            <-> isLitElementSubclass (ClassLike declaration) analyzer = false
                /\ isCustomElementSubclass fuel (ClassLike declaration) analyzer = None)
    as Hmodel.
  { intros fuel name docNode st'. unfold getClassDeclaration.
    destruct (isLitElementSubclass (ClassLike declaration) analyzer).
    - rewrite bind_run. simpl. naive_solver.
    - destruct (isCustomElementSubclass fuel (ClassLike declaration) analyzer)
        as [[|]|]; rewrite ?bind_run; simpl; naive_solver. }
  repeat apply conj.
  - intros Hname Hdefault. unfold getClassDeclarationInfo.
    by rewrite bind_run, getClassDeclarationName_run, Hname, Hdefault.
  - intros name Hcase. unfold getClassDeclarationInfo.
    rewrite bind_run, getClassDeclarationName_run.
    destruct Hcase as [->|(-> & -> & ->)]; by eexists.
  - apply Hmodel.
  - intros [depth Hdepth]%isCustomElementSubclass_returns.
    exists depth. intros fuel name docNode st' Hfuel.
    destruct (fst (getClassDeclaration fuel declaration name analyzer docNode st'))
      eqn:Hnone; [eauto|].
    apply Hmodel in Hnone as [_ Hnone].
    destruct (Hdepth fuel Hfuel) as [answer Hanswer]. congruence.
  - intros before after p st' Hmembers Hname. unfold getClassMembers.
    rewrite Hmembers, forEach_app, forEach_cons.
    by rewrite addMember_unsupported.
  - intros expression st' Hexpression. unfold getSuperClass.
    by rewrite Hexpression.
  - intros before after extendsClause st' Hclauses Hbefore Htoken Hlength.
    unfold getHeritage. rewrite Hclauses. simpl.
    rewrite find_extendsClause by done.
    by destruct (types extendsClause) as [|? [|? ?]].
  - intros type location st' Hnode. unfold getTypeForType. cbv zeta.
    rewrite Hnode. by eexists.
  - intros typeString location st' Hparse. unfold getTypeForTypeString.
    rewrite bind_run, Hparse. done.
Qed.

End Fallbacks.

(** The base types of [classFoo] are not circular: its chain ends at the
    interface [HTMLElement]. *)
Lemma baseDeclaration_classFoo :
  Acc (baseDeclaration exampleAnalyzer) (ClassLike classFoo).
Proof.
  assert (forall d c,
            baseDeclaration exampleAnalyzer d (ClassLike c) ->
            forall base, getBaseTypes exampleChecker (classType c) = [classType base] ->
            d = ClassLike base) as Hstep.
  { intros d c Hd base Hbase. inversion Hd as [c' t declarations _ Ht Hdecl Hin Hc].
    subst c'. change (t ∈ getBaseTypes exampleChecker (classType c)) in Ht.
    rewrite Hbase in Ht.
    apply list_elem_of_singleton in Ht as ->. simpl in Hdecl.
    injection Hdecl as <-. by apply list_elem_of_singleton in Hin. }
  constructor. intros d Hd.
  rewrite (Hstep d classFoo Hd classMiddle) by reflexivity.
  constructor. clear d Hd. intros d Hd.
  rewrite (Hstep d classMiddle Hd classBase) by reflexivity.
  constructor. clear d Hd. intros d Hd.
  inversion Hd as [c' t declarations _ Ht Hdecl Hin Hc]. subst c'.
  change (t ∈ [htmlElementType]) in Ht.
  apply list_elem_of_singleton in Ht as ->. simpl in Hdecl.
  injection Hdecl as <-.
  constructor. intros d' Hd'. inversion Hd' as [c' ? ? _ _ _ _ Hc]. subst d.
  set_solver.
Qed.

Lemma getClassDeclarationInfo_fallbacks_witness :
  exists depth, forall fuel name docNode st',
    depth <= fuel ->
    is_Some (fst (getClassDeclaration fuel classFoo name exampleAnalyzer docNode st')).
Proof.
  exact (proj1 (proj2 (proj2 (proj2
           (getClassDeclarationInfo_fallbacks classFoo exampleAnalyzer initialState))))
           baseDeclaration_classFoo).
Defined.

(** C6, as stated, fails: for [export class { }] the diagnostic is added and
    no declaration info, hence no model, is returned. *)
Lemma getClassDeclarationInfo_unnamed_class :
  getClassDeclarationName classUnnamed exampleAnalyzer initialState
  = (None, withDiagnostics initialState [unnamedClass classUnnamed])
  /\ fst (getClassDeclarationInfo classUnnamed exampleAnalyzer initialState) = None
  /\ diagnostics (snd (getClassDeclarationInfo classUnnamed exampleAnalyzer initialState))
     = [unnamedClass classUnnamed].
Proof. by vm_compute. Qed.

(** ** Types *)

Section Types.
Context `{Imports}.

Lemma getTypeForType_result (t : TsType) (location : Node) (analyzer : Analyzer)
    (st : State) :
  let checker := getTypeChecker analyzer in
  type (fst (getTypeForType t location analyzer st))
  = getBaseTypeOfLiteralType checker t
  /\ text (fst (getTypeForType t location analyzer st))
     = typeToString checker (getBaseTypeOfLiteralType checker t).
Proof.
  unfold getTypeForType. cbv zeta.
  destruct (typeToTypeNode _ _ _); [done|]. by rewrite bind_run.
Qed.

Lemma getTypeForTypeString_result (typeString : string) (location : Node)
    (analyzer : Analyzer) (st : State) (result : AnalyzerType) :
  fst (getTypeForTypeString (Some typeString) location analyzer st) = Some result ->
  exists typeNode,
    fst (parseType typeString st) = Some typeNode
    /\ result
       = {| type := getTypeFromTypeNode (getTypeChecker analyzer) typeNode;
            text := typeString;
            getReferences := getReferencesForTypeNode typeNode location analyzer |}.
Proof.
  unfold getTypeForTypeString. rewrite bind_run.
  destruct (fst (parseType typeString st)) as [typeNode|].
  - simpl. intros [= <-]. by exists typeNode.
  - by rewrite bind_run.
Qed.

(** C7, as the code has it. [getTypeForNode] widens before it prints: the
    type it keeps is the base type of the type at the node, and the text is
    that base type's, so with a checker that widens string literals and prints
    [string], a field whose initializer has a string literal type gets the
    text [string]. [getTypeForTypeString] does not widen: the text is the type
    string as given, and the type is the one of the parsed type node. *)
Theorem getTypeForNode_widens_literals (analyzer : Analyzer) (node : Node)
    (v : string) (st : State) :
  let checker := getTypeChecker analyzer in
  widensStringLiterals checker ->
  printsString checker ->
  typeKind (getTypeAtLocation checker node) = StringLiteralKind v ->
  type (fst (getTypeForNode node analyzer st))
  = getBaseTypeOfLiteralType checker (getTypeAtLocation checker node)
  /\ text (fst (getTypeForNode node analyzer st)) = "string"
  /\ (forall typeString location st' result,
        fst (getTypeForTypeString (Some typeString) location analyzer st')
        = Some result ->
        text result = typeString
        /\ exists typeNode,
             fst (parseType typeString st') = Some typeNode
             /\ type result = getTypeFromTypeNode checker typeNode).
Proof.
  intros checker Hwidens Hprints Hliteral. unfold getTypeForNode.
  destruct (getTypeForType_result (getTypeAtLocation checker node) node analyzer st)
    as [Htype Htext].
  subst checker. cbv zeta in Htype, Htext.
  split; [exact Htype|]. split.
  - rewrite Htext. eapply Hprints, Hwidens, Hliteral.
  - intros typeString location st' result Hresult.
    apply getTypeForTypeString_result in Hresult as (typeNode & Hparse & ->).
    simpl. eauto.
Qed.

End Types.

Lemma exampleChecker_widensStringLiterals : widensStringLiterals exampleChecker.
Proof. intros t v Hkind. simpl. by rewrite Hkind. Qed.

Lemma exampleChecker_printsString : printsString exampleChecker.
Proof. intros t Hkind. simpl. by rewrite Hkind. Qed.

Lemma getTypeForNode_widens_literals_witness :
  text (fst (getTypeForNode (ClassMember fieldBar) exampleAnalyzer initialState))
  = "string".
Proof.
  apply (getTypeForNode_widens_literals exampleAnalyzer (ClassMember fieldBar)
           "hi" initialState).
  - exact exampleChecker_widensStringLiterals.
  - exact exampleChecker_printsString.
  - reflexivity.
Defined.

(** C7, as stated, fails for [getTypeForTypeString]: with the checker that
    widens the inferred type of [bar = 'hi'] to [string], the type string
    ['hi'] keeps its text and its literal type. *)
Lemma getTypeForTypeString_keeps_literal :
  let inferred :=
    fst (getTypeForNode (ClassMember fieldBar) exampleAnalyzer initialState) in
  let documented :=
    fst (getTypeForTypeString (Some "'hi'") (ClassMember fieldBar) exampleAnalyzer
           initialState) in
  text inferred = "string"
  /\ (text <$> documented) = Some "'hi'"
  /\ (typeKind ∘ type <$> documented) = Some (StringLiteralKind "hi")
  /\ (text <$> documented) <> Some "string".
Proof. vm_compute. repeat split; congruence. Qed.

(** ** The scratch buffer *)

Section Scratch.
Context `{Imports}.

(** With a fresh service, [parseType] parses the text it is given: the result
    is the last type alias of the parse of the new contents, whatever the
    buffer and the cache held. *)
Lemma parseType_fresh (typeString : string) (st : State) :
  serviceFresh st ->
  let contents' := "export type typeToParse = " +:+ typeString in
  let sourceFile := parseSourceFile contents' in
  parseType typeString st
  = (sourceFile ≫= fun sourceFile => fold_left typeAlias (statements sourceFile) None,
     {| diagnostics := diagnostics st;
        contents := contents';
        contentsId := contentsId st + 1;
        service := Some {| cachedVersion := contentsId st + 1;
                           cachedSourceFile := sourceFile |} |}).
Proof.
  intros Hfresh. cbv zeta. unfold parseType, updateContents.
  rewrite !bind_run. cbn [fst snd]. unfold getSourceFile at 1 2. cbn [service contentsId contents].
  unfold serviceFresh in Hfresh.
  destruct (service st) as [cache|].
  - destruct (N.eqb_spec (cachedVersion cache) (contentsId st + 1)) as [Heq|_]; [lia|].
    cbn [fst snd]. by destruct (parseSourceFile _).
  - cbn [fst snd]. by destruct (parseSourceFile _).
Qed.

Lemma parseType_keeps_fresh (typeString : string) (st : State) :
  serviceFresh st -> serviceFresh (snd (parseType typeString st)).
Proof.
  intros Hfresh. rewrite parseType_fresh by done. unfold serviceFresh; simpl. lia.
Qed.

Lemma getTypeForTypeString_keeps_fresh (typeString : option string)
    (location : Node) (analyzer : Analyzer) (st : State) :
  serviceFresh st ->
  serviceFresh (snd (getTypeForTypeString typeString location analyzer st)).
Proof.
  intros Hfresh. destruct typeString as [typeString|]; [|done].
  unfold getTypeForTypeString. rewrite bind_run.
  pose proof (parseType_keeps_fresh typeString st Hfresh) as Hfresh'.
  destruct (fst (parseType typeString st)); [done|].
  rewrite bind_run. exact Hfresh'.
Qed.

Lemma getTypeForTypeString_fresh (typeString : string) (location : Node)
    (analyzer : Analyzer) (st : State) :
  serviceFresh st ->
  fst (getTypeForTypeString (Some typeString) location analyzer st)
  = (parseSourceFile ("export type typeToParse = " +:+ typeString)
       ≫= fun sourceFile => fold_left typeAlias (statements sourceFile) None)
    ≫= fun typeNode =>
         Some {| type := getTypeFromTypeNode (getTypeChecker analyzer) typeNode;
                 text := typeString;
                 getReferences :=
                   getReferencesForTypeNode typeNode location analyzer |}.
Proof.
  intros Hfresh. unfold getTypeForTypeString.
  rewrite bind_run, parseType_fresh by done. cbn [fst snd].
  destruct (parseSourceFile _ ≫= _); [done|]. by rewrite bind_run.
Qed.

(** C8. Resolving the same type string twice in a row, at the same location,
    gives the same result: the same text, and reference sequences that are
    equal whenever they are computed in the same analyzer state. Between the
    two calls the buffer was rewritten and parsed again: the version counter
    has moved by two, and the service holds a parse of that version. The same
    result comes out of every later call as well, whatever was parsed in
    between. *)
Theorem getTypeForTypeString_idempotent (typeString : string) (location : Node)
    (analyzer : Analyzer) (st : State) :
  serviceFresh st ->
  let first := getTypeForTypeString (Some typeString) location analyzer st in
  let second :=
    getTypeForTypeString (Some typeString) location analyzer (snd first) in
  fst second = fst first
  /\ (forall result1 result2,
        fst first = Some result1 -> fst second = Some result2 ->
        text result1 = text result2
        /\ forall st', fst (getReferences result1 st') = fst (getReferences result2 st'))
  /\ (forall later,
        serviceFresh later ->
        fst (getTypeForTypeString (Some typeString) location analyzer later)
        = fst first)
  /\ contentsId (snd second) = (contentsId st + 2)%N
  /\ (cachedVersion <$> service (snd first)) = Some (contentsId st + 1)%N
  /\ (cachedVersion <$> service (snd second)) = Some (contentsId st + 2)%N.
Proof.
  intros Hfresh first second.
  pose proof (getTypeForTypeString_keeps_fresh (Some typeString) location analyzer
                st Hfresh) as Hfresh'.
  fold first in Hfresh'.
  assert (fst second = fst first) as Hsame.
  { unfold second, first. by rewrite !getTypeForTypeString_fresh. }
  split; [exact Hsame|]. split.
  { intros result1 result2 H1 H2. rewrite Hsame, H1 in H2. by simplify_eq. }
  split.
  { intros later Hlater. unfold first. by rewrite !getTypeForTypeString_fresh. }
  assert (forall st0, serviceFresh st0 ->
            contentsId (snd (getTypeForTypeString (Some typeString) location
                               analyzer st0)) = (contentsId st0 + 1)%N
            /\ (cachedVersion
                  <$> service (snd (getTypeForTypeString (Some typeString) location
                                      analyzer st0))) = Some (contentsId st0 + 1)%N)
    as Hstep.
  { intros st0 Hst0. unfold getTypeForTypeString.
    rewrite bind_run, parseType_fresh by done. cbn [fst snd].
    destruct (parseSourceFile _ ≫= _); [done|]. by rewrite bind_run. }
  destruct (Hstep st Hfresh) as [Hid1 Hcache1].
  destruct (Hstep (snd first) Hfresh') as [Hid2 Hcache2].
  fold first in Hid1, Hcache1. fold second in Hid2, Hcache2.
  rewrite Hid2, Hcache2, Hid1, Hcache1.
  repeat split; first [lia | f_equal; lia].
Qed.

End Scratch.

Lemma getTypeForTypeString_idempotent_witness :
  let first :=
    getTypeForTypeString (Some "MyDetail") (OtherNode "JSDocTag") exampleAnalyzer
      initialState in
  let second :=
    getTypeForTypeString (Some "MyDetail") (OtherNode "JSDocTag") exampleAnalyzer
      (snd first) in
  fst second = fst first.
Proof.
  intros first second.
  exact (proj1 (getTypeForTypeString_idempotent "MyDetail" (OtherNode "JSDocTag")
                  exampleAnalyzer initialState I)).
Defined.

(** The first of the two calls, run: one reference, to the name in the text. *)
Example getTypeForTypeString_references :
  (fun result => (text result, fst (getReferences result initialState)))
    <$> fst (getTypeForTypeString (Some "MyDetail") (OtherNode "JSDocTag")
               exampleAnalyzer initialState)
  = Some ("MyDetail", [{| referenceName := "MyDetail"; referenceModule := None |}]).
Proof. reflexivity. Qed.

(** ** Import specifiers *)

Lemma append_empty_r (s : string) : s +:+ EmptyString = s.
Proof. induction s as [|c s IH]; [done|]. exact (f_equal (String c) IH). Qed.

Lemma posix_relativeName (packageName : string) :
  isAbsolute posix packageName = false ->
  packageName <> EmptyString ->
  relativeName posix packageName.
Proof. intros Hname Hnonempty rest. by destruct packageName. Qed.

Section Specifiers.
Context `{Imports}.

(** C9. An import specifier that resolves to an absolute path becomes the
    name of the package of the nearest manifest, followed by the path of the
    module within the package; the path is dropped when it is the manifest's
    primary entry point ([module], or [main] when there is no [module]), or
    empty. A specifier that does not resolve to an absolute path is returned
    as resolved. As package names start no absolute path, the result is never
    an absolute path. *)
Theorem getSpecifierFromTypeImport_package (specifier : string)
    (analyzer : Analyzer) :
  let resolved := normalize (path analyzer) (resolveExtension specifier analyzer) in
  let info := getPackageInfo resolved analyzer in
  let modulePath := absoluteToPackage resolved (rootDir info) in
  let primary :=
    match module (packageJson info) with
    | Some entry => Some entry
    | None => main (packageJson info)
    end in
  let result := getSpecifierFromTypeImport specifier analyzer in
  relativeName (path analyzer) (name info) ->
  (isAbsolute (path analyzer) resolved = false -> result = resolved)
  /\ (isAbsolute (path analyzer) resolved = true ->
      (primary = Some modulePath -> result = name info)
      /\ (modulePath = EmptyString -> result = name info)
      /\ (primary <> Some modulePath -> modulePath <> EmptyString ->
          result = name info +:+ "/" +:+ modulePath))
  /\ isAbsolute (path analyzer) result = false.
Proof.
  intros resolved info modulePath primary result Hnames.
  assert (isAbsolute (path analyzer) resolved = true ->
          result
          = name info
            +:+ (if String.eqb
                      (match primary with
                       | Some entry =>
                           if String.eqb modulePath entry then EmptyString
                           else modulePath
                       | None => modulePath
                       end) EmptyString
                 then EmptyString
                 else "/" +:+ match primary with
                              | Some entry =>
                                  if String.eqb modulePath entry then EmptyString
                                  else modulePath
                              | None => modulePath
                              end)) as Hresult.
  { intros Habsolute. unfold result, getSpecifierFromTypeImport. cbv zeta.
    fold resolved. rewrite Habsolute. fold info. fold modulePath. fold primary.
    reflexivity. }
  pose proof append_empty_r as Hright.
  split; [|split].
  - intros Hrelative. unfold result, getSpecifierFromTypeImport. cbv zeta.
    fold resolved. by rewrite Hrelative.
  - intros Habsolute. rewrite (Hresult Habsolute). repeat split.
    + intros ->. rewrite String.eqb_refl. simpl. apply Hright.
    + intros ->. destruct primary as [entry|]; [|apply Hright].
      destruct (String.eqb EmptyString entry); apply Hright.
    + intros Hprimary Hnonempty.
      destruct primary as [entry|].
      * destruct (String.eqb_spec modulePath entry) as [->|_]; [done|].
        by destruct (String.eqb_spec modulePath EmptyString).
      * by destruct (String.eqb_spec modulePath EmptyString).
  - destruct (isAbsolute (path analyzer) resolved) eqn:Habsolute.
    + rewrite (Hresult eq_refl). apply Hnames.
    + unfold result, getSpecifierFromTypeImport. cbv zeta.
      fold resolved. by rewrite Habsolute.
Qed.

End Specifiers.

Lemma getSpecifierFromTypeImport_package_witness :
  getSpecifierFromTypeImport "/repo/node_modules/lit/index.js" exampleAnalyzer = "lit"
  /\ getSpecifierFromTypeImport "/repo/node_modules/lit/decorators.js" exampleAnalyzer
     = "lit/decorators.js"
  /\ isAbsolute posix
       (getSpecifierFromTypeImport "/repo/node_modules/lit/decorators.js"
          exampleAnalyzer) = false.
Proof.
  split; [reflexivity|]. split; [reflexivity|].
  apply (getSpecifierFromTypeImport_package "/repo/node_modules/lit/decorators.js"
           exampleAnalyzer).
  by apply posix_relativeName.
Defined.

(** * Further properties *)

(** ** The scan for a define call *)

Lemma find_none {A} (f : A -> bool) (l : list A) :
  Forall (fun x => f x = false) l -> find f l = None.
Proof. induction 1 as [|x l Hx _ IH]; simpl; [done|]. by rewrite Hx. Qed.

Lemma defineCall_result (nodeName : option string) (found : option string)
    (child : ChildNode) (tag : string) :
  defineCall nodeName found child = Some tag ->
  found = Some tag
  \/ exists ctor, nodeName = Some ctor /\ isDefineCallFor ctor tag child.
Proof.
  unfold defineCall. intros Hcall.
  repeat (case_match; simplify_eq; try (by left)).
  all: repeat match goal with
         | H : _ && _ = true |- _ => apply andb_true_iff in H as [? ?]
         | H : String.eqb _ _ = true |- _ => apply String.eqb_eq in H
         | H : bool_decide _ = true |- _ => apply bool_decide_eq_true in H
         end; simplify_eq.
  all: right; eexists; split; [done|]; eexists _, _; split; [done|]; auto.
Qed.

(** [imperativeDefine] invents nothing: a tag name it returns is the tag of a
    define call among the children of the parent whose constructor argument is
    the identifier that names the class. *)
Theorem imperativeDefine_sound (node : ClassLikeDeclaration) (tag : string) :
  imperativeDefine node = Some tag ->
  exists ctor child,
    className node = Some ctor
    /\ child ∈ children (parent node)
    /\ isDefineCallFor ctor tag child.
Proof.
  unfold imperativeDefine.
  induction (children (parent node)) as [|child l IH] using rev_ind; [done|].
  rewrite fold_left_app. cbn [fold_left]. intros Hcall.
  apply defineCall_result in Hcall as [Hfound|(ctor & Hname & Hchild)].
  - destruct (IH Hfound) as (ctor & child' & ? & ? & ?).
    exists ctor, child'. set_solver.
  - exists ctor, child. set_solver.
Qed.

Lemma imperativeDefine_sound_witness :
  exists ctor child,
    className classDefined = Some ctor
    /\ child ∈ children (parent classDefined)
    /\ isDefineCallFor ctor "x-bar" child.
Proof. apply (imperativeDefine_sound classDefined "x-bar"). reflexivity. Defined.

(** A class without a name gets no tag name from a define call, whatever its
    siblings are: only a string comment of a [customElement] tag can name its
    tag. *)
Theorem getTagName_unnamed_class (node : ClassLikeDeclaration) (tag : string) :
  className node = None ->
  getTagName node = Some tag ->
  exists docTag c,
    docTag ∈ jsDocTags node
    /\ toLowerCase (tagName docTag) = "customelement"
    /\ comment docTag = Some (CommentText c)
    /\ tag = trim c.
Proof.
  intros Hname. unfold getTagName.
  destruct (find isCustomElementTag (jsDocTags node)) as [docTag|] eqn:Hfind.
  - apply find_some in Hfind as [Hin Htag].
    apply isCustomElementTag_spec in Htag. apply list_elem_of_In in Hin.
    destruct docTag as [n [[c|parts]|]]; simpl in *.
    + intros [= <-]. by eexists _, c.
    + intros (ctor & ? & ? & _)%imperativeDefine_sound. congruence.
    + intros (ctor & ? & ? & _)%imperativeDefine_sound. congruence.
  - intros (ctor & ? & ? & _)%imperativeDefine_sound. congruence.
Qed.

Lemma getTagName_unnamed_class_witness :
  let node :=
    {| classKind := ClassExpressionKind; classModifiers := []; className := None;
       jsDocTags := [{| tagName := "customElement";
                        comment := Some (CommentText "x-anonymous") |}];
       heritageClauses := None; members := [];
       parent := sourceFileOf [customElementsDefine "x-foo" "XFoo"] |} in
  exists docTag c,
    docTag ∈ jsDocTags node
    /\ toLowerCase (tagName docTag) = "customelement"
    /\ comment docTag = Some (CommentText c)
    /\ "x-anonymous" = trim c.
Proof.
  intros node. apply (getTagName_unnamed_class node "x-anonymous"); reflexivity.
Defined.

Lemma defineCall_define (ctor tag : string) (found : option string)
    (child : ChildNode) :
  isDefineCallFor ctor tag child -> defineCall (Some ctor) found child = Some tag.
Proof.
  intros (tagNameArg & rest & -> & Harg). unfold defineCall.
  rewrite bool_decide_eq_true_2 by done.
  by destruct Harg as [-> | ->].
Qed.

Lemma defineCall_no_define (ctor : string) (found : option string)
    (child : ChildNode) :
  (forall tag, ~ isDefineCallFor ctor tag child) ->
  defineCall (Some ctor) found child = found.
Proof.
  intros Hchild.
  destruct (defineCall (Some ctor) found child) as [tag|] eqn:Hcall.
  - apply defineCall_result in Hcall as [->|(ctor' & [= <-] & Hdefine)]; [done|].
    by destruct (Hchild tag).
  - destruct found as [tag|]; [|done].
    destruct (defineCall_keeps (Some ctor) tag child) as [tag' Hkeeps]. congruence.
Qed.

Lemma fold_defineCall_no_define (ctor : string) (found : option string)
    (l : list ChildNode) :
  Forall (fun child => forall tag, ~ isDefineCallFor ctor tag child) l ->
  fold_left (defineCall (Some ctor)) l found = found.
Proof.
  induction 1 as [|child l Hchild _ IH]; simpl; [done|].
  by rewrite defineCall_no_define.
Qed.

(** Without a [customElement] tag, the last define call for the class among
    its siblings gives the tag name, whatever statements come before and
    after it: earlier define calls for the class are overwritten, and define
    calls for other classes and other expression statements do not count. *)
Theorem getTagName_last_define_wins (node : ClassLikeDeclaration)
    (ctor tag : string) (before after : list ChildNode) (call : ChildNode) :
  Forall (fun t => toLowerCase (tagName t) <> "customelement") (jsDocTags node) ->
  className node = Some ctor ->
  children (parent node) = before ++ call :: after ->
  isDefineCallFor ctor tag call ->
  Forall (fun child => forall tag', ~ isDefineCallFor ctor tag' child) after ->
  getTagName node = Some tag.
Proof.
  intros Htags Hname Hchildren Hcall Hafter. unfold getTagName.
  rewrite find_none.
  - unfold imperativeDefine. rewrite Hname, Hchildren, fold_left_app.
    cbn [fold_left]. rewrite (defineCall_define ctor tag) by done.
    by apply fold_defineCall_no_define.
  - eapply Forall_impl; [exact Htags|]. intros t Ht; simpl in Ht.
    destruct (isCustomElementTag t) eqn:E; [|done].
    by apply isCustomElementTag_spec in E.
Qed.

Lemma getTagName_last_define_wins_witness : getTagName classLogged = Some "x-log".
Proof.
  apply (getTagName_last_define_wins classLogged "XLog" "x-log"
           [OtherChild "ClassDeclaration"; customElementsDefine "x-old" "XLog"]
           [customElementsDefine "x-other" "Other";
            ExpressionStatement
              (CallExpression
                 (PropertyAccessExpression (Identifier "console") (Identifier "log"))
                 [StringLiteral "a"; StringLiteral "b"]);
            OtherChild "EndOfFileToken"]
           (ExpressionStatement
              (CallExpression
                 (PropertyAccessExpression (Identifier "customElements")
                    (Identifier "define"))
                 [NoSubstitutionTemplateLiteral "x-log"; Identifier "XLog";
                  OtherExpression "{}"]))).
  - constructor.
  - reflexivity.
  - reflexivity.
  - eexists _, _. split; [reflexivity|]. by right.
  - repeat constructor; intros tag' (tagNameArg & rest & Hchild & _);
      discriminate Hchild.
Defined.

(** Only the first [customElement] tag is consulted: when its comment is not
    a plain string, [getTagName] is the result of the scan for a define call,
    even if a later [customElement] tag has a string comment. *)
Theorem getTagName_first_tag_only (node : ClassLikeDeclaration)
    (pre post : list JSDocTag) (tag : JSDocTag) :
  jsDocTags node = pre ++ tag :: post ->
  Forall (fun t => toLowerCase (tagName t) <> "customelement") pre ->
  toLowerCase (tagName tag) = "customelement" ->
  (forall c, comment tag <> Some (CommentText c)) ->
  getTagName node = imperativeDefine node.
Proof.
  intros Htags Hpre Htag Hcomment. unfold getTagName.
  rewrite Htags, (find_first isCustomElementTag pre post tag).
  - destruct tag as [n [[c|parts]|]]; simpl in *; [|done..].
    by destruct (Hcomment c).
  - eapply Forall_impl; [exact Hpre|]. intros t Ht; simpl in Ht.
    destruct (isCustomElementTag t) eqn:E; [|done].
    by apply isCustomElementTag_spec in E.
  - by apply isCustomElementTag_spec.
Qed.

Lemma getTagName_first_tag_only_witness :
  getTagName classTwoTags = imperativeDefine classTwoTags
  /\ getTagName classTwoTags = Some "x-two".
Proof.
  split; [|reflexivity].
  apply (getTagName_first_tag_only classTwoTags []
           [{| tagName := "customElement"; comment := Some (CommentText "x-foo") |}]
           {| tagName := "customElement"; comment := None |}).
  - reflexivity.
  - constructor.
  - reflexivity.
  - intros c. simpl. discriminate.
Defined.

(** ** Classification *)

Lemma some_true_inv {A} (f : A -> option bool) (l : list A) :
  some f l = Some true -> exists x, x ∈ l /\ f x = Some true.
Proof.
  induction l as [|x l IH]; simpl; [done|].
  destruct (f x) as [[|]|] eqn:Hx; [|intros Hl|done].
  - intros _. exists x. set_solver.
  - destruct (IH Hl) as (y & ? & ?). exists y. set_solver.
Qed.

Lemma some_mono {A} (f g : A -> option bool) (l : list A) (b : bool) :
  (forall x b', x ∈ l -> f x = Some b' -> g x = Some b') ->
  some f l = Some b -> some g l = Some b.
Proof.
  induction l as [|x l IH]; intros Hfg; simpl; [done|].
  destruct (f x) as [[|]|] eqn:Hx; [| |done].
  - intros <-. rewrite (Hfg x true); [done|set_solver|done].
  - intros Hl. rewrite (Hfg x false); [|set_solver|done].
    apply IH; [|done]. intros y b' Hy. apply Hfg. set_solver.
Qed.

(** [isCustomElementSubclass] answers [true] only with evidence: the class has
    a tag name, or a chain of base types leads from it to a declaration of the
    interface [HTMLElement] or to a class that has a tag name. *)
Theorem isCustomElementSubclass_sound (analyzer : Analyzer) (fuel : nat)
    (node : Node) :
  isCustomElementSubclass fuel node analyzer = Some true ->
  customElementEvidence analyzer node.
Proof.
  revert node. induction fuel as [|fuel IH]; intros node; [done|].
  destruct node as [c| | | | | |]; try done.
  rewrite isCustomElementSubclass_class.
  destruct (getTagName c) as [tag|] eqn:Htag.
  - intros _. by eapply evidence_tagName.
  - intros (t & Ht & Hdecl)%some_true_inv.
    unfold isCustomElementClassDeclarationWith in Hdecl.
    destruct (getSymbol t ≫= getDeclarations) as [declarations|] eqn:Hsymbol;
      [|done].
    apply some_true_inv in Hdecl as (d & Hd & Hresult).
    destruct (isHTMLElementInterface d) eqn:Hinterface.
    + by eapply evidence_HTMLElement.
    + eapply evidence_base; eauto.
Qed.

Lemma isCustomElementSubclass_sound_witness :
  customElementEvidence exampleAnalyzer (ClassLike classFoo).
Proof.
  apply (isCustomElementSubclass_sound exampleAnalyzer 4 (ClassLike classFoo)).
  reflexivity.
Defined.

(** An answer of [isCustomElementSubclass] does not depend on how deep its
    nested calls were allowed to go: allowing more gives the same answer. *)
Theorem isCustomElementSubclass_fuel_monotone (analyzer : Analyzer)
    (fuel fuel' : nat) (node : Node) (answer : bool) :
  isCustomElementSubclass fuel node analyzer = Some answer ->
  fuel <= fuel' ->
  isCustomElementSubclass fuel' node analyzer = Some answer.
Proof.
  revert fuel' node answer.
  induction fuel as [|fuel IH]; intros fuel' node answer; [done|].
  intros Hanswer Hfuel. destruct fuel' as [|fuel']; [lia|].
  destruct node as [c| | | | | |]; try done.
  rewrite isCustomElementSubclass_class in *.
  destruct (getTagName c); [done|].
  eapply some_mono; [|exact Hanswer].
  intros t b _. unfold isCustomElementClassDeclarationWith.
  destruct (getSymbol t ≫= getDeclarations); [|done].
  apply some_mono. intros d b' _.
  destruct (isHTMLElementInterface d); [done|].
  intros Hd. apply IH; [done|lia].
Qed.

Lemma isCustomElementSubclass_fuel_monotone_witness :
  isCustomElementSubclass 10 (ClassLike classFoo) exampleAnalyzer = Some true.
Proof.
  apply (isCustomElementSubclass_fuel_monotone exampleAnalyzer 3 10
           (ClassLike classFoo) true); [reflexivity|lia].
Defined.

(** When the checker reports a class without a tag name as a declaration of
    its own first base type, [isCustomElementSubclass] does not return:
    nothing in it remembers the classes already visited. *)
Theorem isCustomElementSubclass_cycle (analyzer : Analyzer)
    (c : ClassLikeDeclaration) (t : TsType) (baseTypes : list TsType)
    (declarations : list Node) (fuel : nat) :
  getTagName c = None ->
  getBaseTypes (getTypeChecker analyzer)
    (getTypeAtLocation (getTypeChecker analyzer) (ClassLike c)) = t :: baseTypes ->
  getSymbol t ≫= getDeclarations = Some (ClassLike c :: declarations) ->
  isCustomElementSubclass fuel (ClassLike c) analyzer = None.
Proof.
  intros Htag Hbase Hdecl. induction fuel as [|fuel IH]; [done|].
  rewrite isCustomElementSubclass_class, Htag, Hbase. cbn [some].
  unfold isCustomElementClassDeclarationWith. rewrite Hdecl. cbn [some].
  change (isHTMLElementInterface (ClassLike c)) with false. cbv iota.
  by rewrite IH.
Qed.

Lemma isCustomElementSubclass_cycle_witness :
  isCustomElementSubclass 1000 (ClassLike classLoop) loopAnalyzer = None.
Proof.
  by apply (isCustomElementSubclass_cycle loopAnalyzer classLoop
              (classType classLoop) [] []).
Defined.

(** ** Computations that only add diagnostics *)

Lemma withDiagnostics_nil (st : State) : withDiagnostics st [] = st.
Proof. destruct st; unfold withDiagnostics; simpl. by rewrite app_nil_r. Qed.

Lemma withDiagnostics_app (st : State) (ds1 ds2 : list Diagnostic) :
  withDiagnostics (withDiagnostics st ds1) ds2 = withDiagnostics st (ds1 ++ ds2).
Proof. unfold withDiagnostics; simpl. by rewrite app_assoc. Qed.

Lemma onlyAdds_ret {A} (a : A) : onlyAddsDiagnostics (ret a).
Proof. intros st. exists []. by rewrite withDiagnostics_nil. Qed.

Lemma onlyAdds_addDiagnostic (d : Diagnostic) : onlyAddsDiagnostics (addDiagnostic d).
Proof. intros st. by exists [d]. Qed.

Lemma onlyAdds_emit {A} (r : Emits A) : onlyAddsDiagnostics (emit r).
Proof. intros st. by exists (snd r). Qed.

Lemma onlyAdds_bind {A B} (m : M A) (k : A -> M B) :
  onlyAddsDiagnostics m -> (forall a, onlyAddsDiagnostics (k a)) ->
  onlyAddsDiagnostics (bind m k).
Proof.
  intros Hm Hk st. rewrite bind_run.
  destruct (Hm st) as [ds1 H1]. destruct (Hk (fst (m st)) (snd (m st))) as [ds2 H2].
  exists (ds1 ++ ds2). by rewrite H2, H1, withDiagnostics_app.
Qed.

Lemma onlyAdds_forEach {A B} (f : B -> A -> M B) (l : list A) (acc : B) :
  (forall acc x, onlyAddsDiagnostics (f acc x)) ->
  onlyAddsDiagnostics (forEach f l acc).
Proof.
  intros Hf. revert acc. induction l as [|x l IH]; intros acc; simpl.
  - apply onlyAdds_ret.
  - apply onlyAdds_bind; [apply Hf|apply IH].
Qed.

Lemma onlyAdds_forEach_Forall {A B} (f : B -> A -> M B) (Q : A -> Prop)
    (l : list A) (acc : B) :
  (forall acc x, Q x -> onlyAddsDiagnostics (f acc x)) ->
  Forall Q l ->
  onlyAddsDiagnostics (forEach f l acc).
Proof.
  intros Hf Hl. revert acc. induction Hl as [|x l Hx _ IH]; intros acc; simpl.
  - apply onlyAdds_ret.
  - apply onlyAdds_bind; [by apply Hf|apply IH].
Qed.

Lemma keeps_ret {A} (P : State -> Prop) (a : A) : keeps P (ret a).
Proof. by intros st. Qed.

Lemma keeps_bind {A B} (P : State -> Prop) (m : M A) (k : A -> M B) :
  keeps P m -> (forall a, keeps P (k a)) -> keeps P (bind m k).
Proof. intros Hm Hk st Hst. rewrite bind_run. by apply Hk, Hm. Qed.

Lemma keeps_forEach {A B} (P : State -> Prop) (f : B -> A -> M B) (l : list A)
    (acc : B) :
  (forall acc x, keeps P (f acc x)) -> keeps P (forEach f l acc).
Proof.
  intros Hf. revert acc. induction l as [|x l IH]; intros acc; simpl.
  - apply keeps_ret.
  - apply keeps_bind; [apply Hf|apply IH].
Qed.

Lemma keeps_onlyAdds {A} (P : State -> Prop) (m : M A) :
  (forall st ds, P st -> P (withDiagnostics st ds)) ->
  onlyAddsDiagnostics m -> keeps P m.
Proof. intros HP Hm st Hst. destruct (Hm st) as [ds ->]. by apply HP. Qed.

Create HintDb frame.
#[local] Hint Resolve onlyAdds_ret onlyAdds_addDiagnostic onlyAdds_emit
  onlyAdds_forEach : frame.
#[local] Hint Extern 2 (onlyAddsDiagnostics (bind _ _)) =>
  apply onlyAdds_bind; [|intros ?] : frame.
#[local] Hint Extern 3 (onlyAddsDiagnostics (match ?x with _ => _ end)) =>
  destruct x : frame.
#[local] Hint Extern 3 (onlyAddsDiagnostics (if ?x then _ else _)) =>
  destruct x : frame.

(** What [onlyAddsDiagnostics] gives, field by field. *)
Lemma onlyAddsDiagnostics_frame {A} (m : M A) (st : State) :
  onlyAddsDiagnostics m ->
  diagnostics st `prefix_of` diagnostics (snd (m st))
  /\ contents (snd (m st)) = contents st
  /\ contentsId (snd (m st)) = contentsId st
  /\ service (snd (m st)) = service st.
Proof.
  intros Hm. destruct (Hm st) as [ds ->]. simpl.
  split; [by apply prefix_app_r|done].
Qed.

(** ** Heritage, continued *)

Lemma find_Some_split {A} (f : A -> bool) (l : list A) (x : A) :
  find f l = Some x ->
  exists before after,
    l = before ++ x :: after /\ Forall (fun y => f y = false) before /\ f x = true.
Proof.
  induction l as [|y l IH]; simpl; [done|].
  destruct (f y) eqn:Hy.
  - intros [= ->]. by exists [], l.
  - intros (before & after & -> & ? & ?)%IH.
    exists (y :: before), after. by repeat constructor.
Qed.

Lemma isExtendsClause_false (c : HeritageClause) :
  isExtendsClause c = false <-> token c <> ExtendsKeyword.
Proof. unfold isExtendsClause. by destruct (token c). Qed.

Section HeritageMore.
Context `{Imports}.

Lemma getSuperClass_onlyAdds (expression : Expression) (analyzer : Analyzer) :
  onlyAddsDiagnostics (getSuperClass expression analyzer).
Proof. unfold getSuperClass. auto with frame. Qed.

Lemma getHeritage_onlyAdds (declaration : ClassLikeDeclaration)
    (analyzer : Analyzer) :
  onlyAddsDiagnostics (getHeritage declaration analyzer).
Proof.
  unfold getHeritage, getHeritageFromExpression.
  pose proof getSuperClass_onlyAdds. cbv zeta.
  destruct (heritageClauses declaration ≫= find isExtendsClause) as [clause|];
    [|auto with frame].
  destruct (types clause) as [|t [|? ?]]; auto with frame.
Qed.

(** The heritage [getHeritage] returns never has mixins, whatever the
    [extends] clause is, and all the call does to the state is add
    diagnostics. *)
Theorem getHeritage_no_mixins (declaration : ClassLikeDeclaration)
    (analyzer : Analyzer) (st : State) :
  mixins (fst (getHeritage declaration analyzer st)) = []
  /\ exists ds, snd (getHeritage declaration analyzer st) = withDiagnostics st ds.
Proof.
  split; [|apply getHeritage_onlyAdds].
  unfold getHeritage, getHeritageFromExpression. cbv zeta.
  destruct (heritageClauses declaration ≫= find isExtendsClause) as [clause|];
    [|done].
  destruct (types clause) as [|t [|? ?]]; rewrite ?bind_run; done.
Qed.

(** [getHeritage] returns a superclass only for an [extends] clause with
    exactly one type whose expression is an identifier, and the superclass is
    the reference that [getReferenceForIdentifier] gives for it. *)
Theorem getHeritage_superClass_identifier (declaration : ClassLikeDeclaration)
    (analyzer : Analyzer) (st : State) (ref : Reference) :
  superClass (fst (getHeritage declaration analyzer st)) = Some ref ->
  exists before extendsClause after id,
    heritageClauses declaration = Some (before ++ extendsClause :: after)
    /\ Forall (fun c => token c <> ExtendsKeyword) before
    /\ token extendsClause = ExtendsKeyword
    /\ types extendsClause = [{| typeExpression := Identifier id |}]
    /\ fst (getReferenceForIdentifier (Identifier id) analyzer) = Some ref.
Proof.
  unfold getHeritage, getHeritageFromExpression. cbv zeta.
  destruct (heritageClauses declaration) as [clauses|] eqn:Hclauses; [|done].
  simpl. destruct (find isExtendsClause clauses) as [clause|] eqn:Hfind; [|done].
  apply find_Some_split in Hfind as (before & after & -> & Hbefore & Hclause).
  destruct (types clause) as [|[expression] [|? ?]] eqn:Htypes;
    rewrite ?bind_run; [done| |done].
  unfold getSuperClass. simpl.
  destruct expression as [id| | | | | |]; simpl; rewrite ?bind_run; try done.
  intros Href. exists before, clause, after, id.
  repeat split; try done.
  - eapply Forall_impl; [exact Hbefore|]. intros c. apply isExtendsClause_false.
  - unfold isExtendsClause in Hclause. by destruct (token clause).
Qed.

(** A class without an [extends] clause, with or without an [implements]
    clause, has the empty heritage, and the state is as before. *)
Theorem getHeritage_without_extends (declaration : ClassLikeDeclaration)
    (analyzer : Analyzer) (st : State) :
  (forall clauses,
     heritageClauses declaration = Some clauses ->
     Forall (fun c => token c <> ExtendsKeyword) clauses) ->
  getHeritage declaration analyzer st
  = ({| mixins := []; superClass := None |}, st).
Proof.
  intros Hclauses. unfold getHeritage.
  destruct (heritageClauses declaration) as [clauses|]; [|done]. simpl.
  rewrite find_none; [done|].
  eapply Forall_impl; [by apply Hclauses|]. intros c. apply isExtendsClause_false.
Qed.

(** An [extends] clause whose one type is not an identifier, as in a mixin
    application, gives the empty heritage and the warning [UNSUPPORTED]. *)
Theorem getHeritage_mixin_application (declaration : ClassLikeDeclaration)
    (analyzer : Analyzer) (st : State) (before after : list HeritageClause)
    (extendsClause : HeritageClause) (extendsType : ExpressionWithTypeArguments) :
  heritageClauses declaration = Some (before ++ extendsClause :: after) ->
  Forall (fun c => token c <> ExtendsKeyword) before ->
  token extendsClause = ExtendsKeyword ->
  types extendsClause = [extendsType] ->
  isIdentifier (typeExpression extendsType) = false ->
  getHeritage declaration analyzer st
  = ({| mixins := []; superClass := None |},
     withDiagnostics st [notConcreteSuperclass (typeExpression extendsType)])
  /\ exists options,
       notConcreteSuperclass (typeExpression extendsType) = createDiagnostic options
       /\ category options = Some Warning /\ code options = Some UNSUPPORTED.
Proof.
  intros Hclauses Hbefore Htoken Htypes Hexpression.
  split; [|by eexists].
  unfold getHeritage, getHeritageFromExpression, getSuperClass. rewrite Hclauses.
  simpl. rewrite find_extendsClause by done. rewrite Htypes, Hexpression.
  by rewrite !bind_run.
Qed.

End HeritageMore.

Lemma getHeritage_superClass_identifier_witness :
  exists before extendsClause after id,
    heritageClauses classFoo = Some (before ++ extendsClause :: after)
    /\ Forall (fun c => token c <> ExtendsKeyword) before
    /\ token extendsClause = ExtendsKeyword
    /\ types extendsClause = [{| typeExpression := Identifier id |}]
    /\ fst (getReferenceForIdentifier (Identifier id) exampleAnalyzer)
       = Some {| referenceName := "MiddleElement"; referenceModule := None |}.
Proof.
  apply (getHeritage_superClass_identifier classFoo exampleAnalyzer initialState).
  reflexivity.
Defined.

Lemma getHeritage_without_extends_witness :
  getHeritage classTagged exampleAnalyzer initialState
  = ({| mixins := []; superClass := None |}, initialState).
Proof.
  apply (getHeritage_without_extends classTagged exampleAnalyzer initialState).
  intros clauses. simpl. discriminate.
Defined.

Lemma getHeritage_mixin_application_witness :
  getHeritage classMixed exampleAnalyzer initialState
  = ({| mixins := []; superClass := None |},
     withDiagnostics initialState
       [notConcreteSuperclass
          (CallExpression (Identifier "Mixin") [Identifier "Base"])]).
Proof.
  apply (getHeritage_mixin_application classMixed exampleAnalyzer initialState
           [{| token := ImplementsKeyword;
               types := [{| typeExpression := Identifier "Marker" |}] |}]
           []
           {| token := ExtendsKeyword;
              types := [{| typeExpression :=
                             CallExpression (Identifier "Mixin")
                               [Identifier "Base"] |}] |}
           {| typeExpression :=
                CallExpression (Identifier "Mixin") [Identifier "Base"] |}).
  - reflexivity.
  - constructor; [simpl; discriminate|constructor].
  - reflexivity.
  - reflexivity.
  - reflexivity.
Defined.

(** ** Class members, continued *)

Section MembersMore.
Context `{Imports}.
Implicit Types (analyzer : Analyzer) (maps : ClassMembers) (st : State)
  (node : ClassElement) (l : list ClassElement) (p : PropertyDeclaration)
  (name : string).

Lemma getTypeForType_onlyAdds (t : TsType) (location : Node) analyzer :
  onlyAddsDiagnostics (getTypeForType t location analyzer).
Proof. unfold getTypeForType. cbv zeta. auto with frame. Qed.

Lemma getTypeForNode_fst (location : Node) analyzer st st' :
  fst (getTypeForNode location analyzer st) = fst (getTypeForNode location analyzer st').
Proof.
  unfold getTypeForNode, getTypeForType. cbv zeta.
  destruct (typeToTypeNode _ _ _); [done|]. by rewrite !bind_run.
Qed.

Lemma addMember_onlyAdds analyzer maps node :
  onlyAddsDiagnostics (addMember analyzer maps node).
Proof.
  pose proof getTypeForType_onlyAdds.
  unfold addMember, getTypeForNode. cbv zeta. auto 10 with frame.
Qed.

Lemma getClassMembers_onlyAdds (declaration : ClassLikeDeclaration) analyzer :
  onlyAddsDiagnostics (getClassMembers declaration analyzer).
Proof.
  unfold getClassMembers. apply onlyAdds_forEach. apply addMember_onlyAdds.
Qed.

Lemma addMember_fieldMaps analyzer maps node st :
  fieldMap (fst (addMember analyzer maps node st))
  = fieldMapStep analyzer false (fieldMap maps) node
  /\ staticFieldMap (fst (addMember analyzer maps node st))
     = fieldMapStep analyzer true (staticFieldMap maps) node.
Proof.
  destruct node as [m|p|k]; [| |done].
  - unfold addMember, fieldMapStep. destruct (methodBody m); [|done].
    rewrite !bind_run. unfold ret; simpl.
    by destruct (hasStaticModifier (ClassMember (Method m))).
  - unfold addMember, fieldMapStep, fieldEntry.
    destruct (isIdentifierName (propertyName p)); cbn [negb andb].
    + rewrite !bind_run. unfold ret, emit; simpl.
      rewrite (getTypeForNode_fst _ analyzer st initialState).
      by destruct (hasStaticModifier (ClassMember (Property p))).
    + by rewrite bind_run.
Qed.

Lemma forEach_addMember_fieldMaps analyzer l maps st :
  fieldMap (fst (forEach (addMember analyzer) l maps st))
  = fold_left (fieldMapStep analyzer false) l (fieldMap maps)
  /\ staticFieldMap (fst (forEach (addMember analyzer) l maps st))
     = fold_left (fieldMapStep analyzer true) l (staticFieldMap maps).
Proof.
  revert maps st. induction l as [|node l IH]; intros maps st; [done|].
  rewrite forEach_cons. cbn [fold_left].
  destruct (addMember_fieldMaps analyzer maps node st) as [<- <-]. apply IH.
Qed.

Lemma fold_fieldMapStep_lookup analyzer (isStatic : bool) l name :
  fold_left (fieldMapStep analyzer isStatic) l ∅ !! name
  = fieldEntry analyzer <$> last (fieldsOf isStatic name l).
Proof.
  induction l as [|node l IH] using rev_ind; [done|].
  rewrite fold_left_app. cbn [fold_left]. unfold fieldsOf in *.
  rewrite omap_app; simpl.
  destruct node as [m|p|k]; simpl; rewrite ?app_nil_r; try done.
  destruct (isIdentifierName (propertyName p) && _); simpl;
    rewrite ?app_nil_r; [|done].
  destruct (String.eqb_spec (nameText (propertyName p)) name) as [->|Hne].
  - by rewrite lookup_insert_eq, last_snoc.
  - rewrite lookup_insert_ne by done. by rewrite app_nil_r.
Qed.

(** The entry of a field map under a name is made of the last
    identifier-named property declaration of that name and staticness: it
    holds the source text of that declaration's initializer, if it has one,
    and the text of the widened type the checker has at the declaration. *)
Theorem getClassMembers_field_lookup (declaration : ClassLikeDeclaration)
    analyzer st :
  let result := fst (getClassMembers declaration analyzer st) in
  let checker := getTypeChecker analyzer in
  (forall name,
     fieldMap result !! name
     = fieldEntry analyzer <$> last (fieldsOf false name (members declaration)))
  /\ (forall name,
        staticFieldMap result !! name
        = fieldEntry analyzer <$> last (fieldsOf true name (members declaration)))
  /\ (forall p,
        fieldDefault (fieldEntry analyzer p) = initializerText <$> propertyInitializer p
        /\ text (fieldType (fieldEntry analyzer p))
           = typeToString checker
               (getBaseTypeOfLiteralType checker
                  (getTypeAtLocation checker (ClassMember (Property p))))).
Proof.
  intros result checker.
  destruct (forEach_addMember_fieldMaps analyzer (members declaration) noMembers st)
    as [Hinstance Hstatic].
  fold (getClassMembers declaration analyzer st) in Hinstance, Hstatic.
  fold result in Hinstance, Hstatic.
  split; [|split].
  - intros name. rewrite Hinstance. apply fold_fieldMapStep_lookup.
  - intros name. rewrite Hstatic. apply fold_fieldMapStep_lookup.
  - intros p. split; [done|]. unfold fieldEntry, getTypeForNode; simpl.
    apply getTypeForType_result.
Qed.

(** No property with a computed or literal name is dropped silently: the
    diagnostic of each such declaration is among the diagnostics after
    [getClassMembers], whatever else the members add. *)
Theorem getClassMembers_reports_unsupported (declaration : ClassLikeDeclaration)
    analyzer st p :
  Property p ∈ members declaration ->
  isIdentifierName (propertyName p) = false ->
  unsupportedPropertyName (Property p)
  ∈ diagnostics (snd (getClassMembers declaration analyzer st)).
Proof.
  intros (l1 & l2 & Hmembers)%list_elem_of_split Hname.
  unfold getClassMembers. rewrite Hmembers, forEach_app, forEach_cons.
  rewrite addMember_unsupported by done. cbn [fst snd].
  match goal with
  | |- _ ∈ diagnostics (snd (forEach ?f ?l ?acc ?st0)) =>
      destruct (onlyAdds_forEach f l acc (addMember_onlyAdds analyzer) st0)
        as [ds ->]
  end.
  simpl. set_solver.
Qed.

End MembersMore.

Lemma getClassMembers_reports_unsupported_witness :
  unsupportedPropertyName
    (field [] {| nameKind := ComputedPropertyName; nameText := "['computed']" |}
       (Some (numberInitializer "3")))
  ∈ diagnostics (snd (getClassMembers classOverloaded exampleAnalyzer initialState)).
Proof.
  apply (getClassMembers_reports_unsupported classOverloaded exampleAnalyzer
           initialState
           {| propertyModifiers := [];
              propertyName := {| nameKind := ComputedPropertyName;
                                 nameText := "['computed']" |};
              propertyInitializer := Some (numberInitializer "3") |}).
  - simpl. unfold field. set_solver.
  - reflexivity.
Defined.

(** ** Documentation tags *)

Section JSDocMore.
Context `{Imports}.
Implicit Types (analyzer : Analyzer) (maps : TagMaps) (st : State)
  (tag : JSDocTag) (tags : list JSDocTag) (name : string).

Lemma addNamedJSDocInfoToMap_run (map : gmap string NamedDescribed) tag analyzer st :
  fst (addNamedJSDocInfoToMap map tag analyzer st)
  = match fst (parseNamedJSDocInfo tag analyzer) with
    | Some info => <[namedName info := info]> map
    | None => map
    end.
Proof.
  unfold addNamedJSDocInfoToMap. rewrite bind_run. unfold emit; simpl.
  by destruct (fst (parseNamedJSDocInfo tag analyzer)).
Qed.

Lemma addTag_named_maps analyzer maps tag st :
  tagSlots (fst (addTag analyzer maps tag st))
  = namedStep analyzer ["slot"] (tagSlots maps) tag
  /\ tagCssProperties (fst (addTag analyzer maps tag st))
     = namedStep analyzer ["cssProp"; "cssProperty"] (tagCssProperties maps) tag
  /\ tagCssParts (fst (addTag analyzer maps tag st))
     = namedStep analyzer ["cssPart"] (tagCssParts maps) tag.
Proof.
  unfold addTag, namedStep. cbn [existsb].
  destruct (String.eqb (tagName tag) "fires") eqn:Hfires.
  { apply String.eqb_eq in Hfires. rewrite Hfires, bind_run. done. }
  destruct (String.eqb (tagName tag) "slot") eqn:Hslot.
  { apply String.eqb_eq in Hslot. rewrite Hslot, bind_run.
    cbn [fst snd ret tagSlots tagCssProperties tagCssParts].
    by rewrite addNamedJSDocInfoToMap_run. }
  destruct (String.eqb (tagName tag) "cssProp") eqn:HcssProp.
  { apply String.eqb_eq in HcssProp. cbn [orb]. rewrite HcssProp, bind_run.
    cbn [fst snd ret tagSlots tagCssProperties tagCssParts].
    by rewrite addNamedJSDocInfoToMap_run. }
  destruct (String.eqb (tagName tag) "cssProperty") eqn:HcssProperty.
  { apply String.eqb_eq in HcssProperty. cbn [orb]. rewrite HcssProperty, bind_run.
    cbn [fst snd ret tagSlots tagCssProperties tagCssParts].
    by rewrite addNamedJSDocInfoToMap_run. }
  cbn [orb].
  destruct (String.eqb (tagName tag) "cssPart") eqn:HcssPart.
  { rewrite bind_run.
    cbn [fst snd ret tagSlots tagCssProperties tagCssParts].
    by rewrite addNamedJSDocInfoToMap_run. }
  done.
Qed.

Lemma forEach_addTag_named_maps analyzer tags maps st :
  tagSlots (fst (forEach (addTag analyzer) tags maps st))
  = fold_left (namedStep analyzer ["slot"]) tags (tagSlots maps)
  /\ tagCssProperties (fst (forEach (addTag analyzer) tags maps st))
     = fold_left (namedStep analyzer ["cssProp"; "cssProperty"]) tags
         (tagCssProperties maps)
  /\ tagCssParts (fst (forEach (addTag analyzer) tags maps st))
     = fold_left (namedStep analyzer ["cssPart"]) tags (tagCssParts maps).
Proof.
  revert maps st. induction tags as [|tag tags IH]; intros maps st; [done|].
  rewrite forEach_cons. cbn [fold_left].
  destruct (addTag_named_maps analyzer maps tag st) as (<- & <- & <-). apply IH.
Qed.

Lemma fold_namedStep_lookup analyzer (names : list string) tags name :
  fold_left (namedStep analyzer names) tags ∅ !! name
  = last (filter (fun info => namedName info = name) (namedInfos analyzer names tags)).
Proof.
  induction tags as [|tag tags IH] using rev_ind; [done|].
  rewrite fold_left_app. cbn [fold_left]. unfold namedInfos, namedStep in *.
  rewrite omap_app, filter_app; simpl.
  destruct (existsb _ names); simpl; rewrite ?app_nil_r; [|done].
  destruct (fst (parseNamedJSDocInfo tag analyzer)) as [info|]; simpl;
    rewrite ?app_nil_r; [|done].
  rewrite filter_cons. destruct (decide (namedName info = name)) as [<-|Hne].
  - by rewrite lookup_insert_eq, filter_nil, last_snoc.
  - rewrite lookup_insert_ne by done. by rewrite filter_nil, app_nil_r.
Qed.

(** The slot, CSS property and CSS part maps of [getJSDocData] hold, under
    each name, what [parseNamedJSDocInfo] made of the last tag that parsed to
    that name, among the tags named exactly [slot], [cssProp] or
    [cssProperty], and [cssPart]; tags that do not parse and tags of any
    other name, or of another case, add nothing. *)
Theorem getJSDocData_named_maps (node : ClassLikeDeclaration) analyzer st :
  let result := fst (getJSDocData node analyzer st) in
  let under name names :=
    last (filter (fun info => namedName info = name)
            (namedInfos analyzer names (jsDocTags node))) in
  (forall name, slots result !! name = under name ["slot"])
  /\ (forall name,
        cssProperties result !! name = under name ["cssProp"; "cssProperty"])
  /\ (forall name, cssParts result !! name = under name ["cssPart"]).
Proof.
  intros result under. unfold result, getJSDocData. rewrite !bind_run.
  cbn [fst snd ret slots cssProperties cssParts].
  match goal with
  | |- context [forEach (addTag analyzer) ?tags ?maps ?st0] =>
      destruct (forEach_addTag_named_maps analyzer tags maps st0)
        as (-> & -> & ->)
  end.
  cbn [tagSlots tagCssProperties tagCssParts].
  repeat split; intros name; apply fold_namedStep_lookup.
Qed.

Lemma addNamedJSDocInfoToMap_onlyAdds (map : gmap string NamedDescribed) tag
    analyzer :
  onlyAddsDiagnostics (addNamedJSDocInfoToMap map tag analyzer).
Proof. unfold addNamedJSDocInfoToMap. auto 10 with frame. Qed.

(** A tag of any name but [fires] only adds diagnostics. *)
Lemma addTag_onlyAdds analyzer maps tag :
  tagName tag <> "fires" -> onlyAddsDiagnostics (addTag analyzer maps tag).
Proof.
  intros Hfires%String.eqb_neq. unfold addTag. rewrite Hfires.
  pose proof addNamedJSDocInfoToMap_onlyAdds. auto 10 with frame.
Qed.

Lemma getJSDocData_onlyAdds (node : ClassLikeDeclaration) analyzer :
  Forall (fun tag => tagName tag <> "fires") (jsDocTags node) ->
  onlyAddsDiagnostics (getJSDocData node analyzer).
Proof.
  intros Htags. unfold getJSDocData.
  apply onlyAdds_bind; [|auto 10 with frame].
  apply (onlyAdds_forEach_Forall _ (fun tag => tagName tag <> "fires")); [|done].
  intros maps tag. apply addTag_onlyAdds.
Qed.

(** What [addEventsToMap] keeps of the state, [getJSDocData] keeps. *)
Lemma getJSDocData_keeps (P : State -> Prop) (node : ClassLikeDeclaration) analyzer :
  (forall st ds, P st -> P (withDiagnostics st ds)) ->
  (forall tag events, keeps P (addEventsToMap tag events analyzer)) ->
  keeps P (getJSDocData node analyzer).
Proof.
  intros HP Hevents. unfold getJSDocData.
  apply keeps_bind; [|intros maps; apply keeps_onlyAdds; auto 10 with frame].
  apply keeps_forEach. intros maps tag.
  destruct (String.eqb (tagName tag) "fires") eqn:Hfires.
  - unfold addTag. rewrite Hfires.
    apply keeps_bind; [apply Hevents|intros events; apply keeps_ret].
  - apply keeps_onlyAdds; [done|]. by apply addTag_onlyAdds, String.eqb_neq.
Qed.

End JSDocMore.

(** The tags of [classDocumented], run: the tag [Slot] is not a slot, and the
    two spellings of the CSS property tag fill one map. *)
Example getJSDocData_documented :
  let result := fst (getJSDocData classDocumented exampleAnalyzer initialState) in
  (size (slots result), size (cssProperties result), size (cssParts result))
  = (1, 2, 1)
  /\ slots result !! "Slot" = None.
Proof. vm_compute. done. Qed.

(** ** Declaration models *)

Section Models.
Context `{Imports}.

Lemma getClassDeclaration_onlyAdds (fuel : nat) (declaration : ClassLikeDeclaration)
    (name : string) (analyzer : Analyzer) (docNode : option Node) :
  isLitElementSubclass (ClassLike declaration) analyzer = false ->
  (isCustomElementSubclass fuel (ClassLike declaration) analyzer = Some true ->
   Forall (fun tag => tagName tag <> "fires") (jsDocTags declaration)) ->
  onlyAddsDiagnostics (getClassDeclaration fuel declaration name analyzer docNode).
Proof.
  intros Hlit Htags. pose proof getClassMembers_onlyAdds.
  unfold getClassDeclaration, getCustomElementDeclaration. cbv zeta.
  rewrite Hlit.
  destruct (isCustomElementSubclass _ _ _) as [[|]|]; [|auto 10 with frame..].
  pose proof (getJSDocData_onlyAdds declaration analyzer (Htags eq_refl)).
  auto 10 with frame.
Qed.

(** What [addEventsToMap] and [getLitElementDeclaration] keep of the state,
    [getClassDeclaration] keeps. *)
Lemma getClassDeclaration_keeps (P : State -> Prop) (fuel : nat)
    (declaration : ClassLikeDeclaration) (name : string) (analyzer : Analyzer)
    (docNode : option Node) :
  (forall st ds, P st -> P (withDiagnostics st ds)) ->
  (forall tag events, keeps P (addEventsToMap tag events analyzer)) ->
  keeps P (getLitElementDeclaration declaration analyzer) ->
  keeps P (getClassDeclaration fuel declaration name analyzer docNode).
Proof.
  intros HP Hevents Hlit. unfold getClassDeclaration, getCustomElementDeclaration.
  cbv zeta.
  assert (forall A (m : M A), onlyAddsDiagnostics m -> keeps P m) as Hadds.
  { intros A m. by apply keeps_onlyAdds. }
  pose proof getClassMembers_onlyAdds.
  destruct (isLitElementSubclass _ _).
  { apply keeps_bind; [done|intros d; apply keeps_ret]. }
  destruct (isCustomElementSubclass _ _ _) as [[|]|].
  - apply keeps_bind; [|intros d; apply keeps_ret].
    apply keeps_bind; [by apply getJSDocData_keeps|intros jsDocData].
    apply Hadds. auto 10 with frame.
  - apply Hadds. auto 10 with frame.
  - apply keeps_ret.
Qed.

(** Building the model of a class that is not a LitElement subclass does
    nothing to the state but add diagnostics when it reads no [fires] tag:
    those recorded before stay, in their order, and the scratch buffer, its
    version and the language service are as before. The model of a plain
    class reads none, whatever the tags of the class; that of a custom
    element reads none when no tag of the class is named [fires]. *)
Theorem getClassDeclaration_only_adds_diagnostics (fuel : nat)
    (declaration : ClassLikeDeclaration) (name : string) (analyzer : Analyzer)
    (docNode : option Node) (st : State) :
  isLitElementSubclass (ClassLike declaration) analyzer = false ->
  (isCustomElementSubclass fuel (ClassLike declaration) analyzer = Some true ->
   Forall (fun tag => tagName tag <> "fires") (jsDocTags declaration)) ->
  let st' := snd (getClassDeclaration fuel declaration name analyzer docNode st) in
  diagnostics st `prefix_of` diagnostics st'
  /\ contents st' = contents st
  /\ contentsId st' = contentsId st
  /\ service st' = service st.
Proof.
  intros Hlit Htags. by apply onlyAddsDiagnostics_frame, getClassDeclaration_onlyAdds.
Qed.

(** For a class declaration without a name that is a default export,
    [getClassDeclarationInfo] gives the name [default]; the model its factory
    builds has that name when it is a plain class model, and the empty name
    when it is a custom element model, which is named after the class
    itself. *)
Theorem getClassDeclaration_default_export_name (declaration : ClassLikeDeclaration)
    (analyzer : Analyzer) (st st' : State) (fuel : nat) :
  className declaration = None ->
  hasDefaultModifier (ClassLike declaration) = true ->
  isLitElementSubclass (ClassLike declaration) analyzer = false ->
  exists info,
    getClassDeclarationInfo declaration analyzer st = (Some info, st)
    /\ declarationName info = "default"
    /\ (isCustomElementSubclass fuel (ClassLike declaration) analyzer = Some true ->
        exists model,
          fst (factory info fuel st') = Some (CustomElementModel model)
          /\ customElementName model = EmptyString
          /\ tagname model = getTagName declaration)
    /\ (isCustomElementSubclass fuel (ClassLike declaration) analyzer = Some false ->
        exists model,
          fst (factory info fuel st') = Some (ClassModel model)
          /\ classDeclarationName model = "default").
Proof.
  intros Hname Hdefault Hlit. unfold getClassDeclarationInfo.
  rewrite bind_run, getClassDeclarationName_run, Hname, Hdefault.
  eexists. split; [reflexivity|]. split; [reflexivity|].
  cbn [factory]. unfold getClassDeclaration. rewrite Hlit. split; intros ->.
  - rewrite bind_run. unfold getCustomElementDeclaration. cbv zeta.
    rewrite !bind_run. cbn [fst ret]. eexists. split; [reflexivity|].
    by rewrite Hname.
  - rewrite !bind_run. cbn [fst ret]. by eexists.
Qed.

End Models.

Lemma getClassDeclaration_only_adds_diagnostics_witness :
  let st' :=
    snd (getClassDeclaration 1 classDefaultExport "default" exampleAnalyzer None
           initialState) in
  diagnostics initialState `prefix_of` diagnostics st'
  /\ contents st' = contents initialState
  /\ contentsId st' = contentsId initialState
  /\ service st' = service initialState.
Proof.
  apply (getClassDeclaration_only_adds_diagnostics 1 classDefaultExport "default"
           exampleAnalyzer None initialState).
  - reflexivity.
  - intros _. repeat constructor. simpl. discriminate.
Defined.

(** With a [fires] tag the state does change: the events module of the
    examples resolves the type string of the tag of [classFiring], which
    rewrites the scratch buffer and moves its version; the event is set under
    its name, as the end-to-end property of the spec has it. *)
Example getClassDeclaration_fires :
  let run :=
    @getClassDeclaration firesImports 1 classFiring "XFiring" exampleAnalyzer None
      initialState in
  contents (snd run) = "export type typeToParse = MyDetail"
  /\ contentsId (snd run) = 1%N
  /\ diagnostics (snd run) = []
  /\ match fst run with
     | Some (CustomElementModel model) =>
         let events : gmap string FiredEvent :=
           events (customElementJSDocData model) in
         match events !! "my-event" with
         | Some event => Some (size events, firedName event, text <$> firedType event)
         | None => None
         end
     | _ => None
     end
     = Some (1, "my-event", Some "MyDetail").
Proof. vm_compute. done. Qed.

Lemma getClassDeclaration_default_export_name_witness :
  exists info,
    getClassDeclarationInfo classDefaultExport exampleAnalyzer initialState
    = (Some info, initialState)
    /\ declarationName info = "default"
    /\ exists model,
         fst (factory info 1 initialState) = Some (CustomElementModel model)
         /\ customElementName model = EmptyString
         /\ tagname model = Some "x-anonymous".
Proof.
  destruct (getClassDeclaration_default_export_name classDefaultExport
              exampleAnalyzer initialState initialState 1)
    as (info & Hinfo & Hname & Hcustom & _); [reflexivity..|].
  exists info. split; [exact Hinfo|]. split; [exact Hname|].
  apply Hcustom. reflexivity.
Defined.

(** ** The scratch buffer, continued *)

Section ScratchMore.
Context `{Imports}.

Lemma parseType_state (typeString : string) (st : State) :
  diagnostics (snd (parseType typeString st)) = diagnostics st
  /\ contents (snd (parseType typeString st))
     = "export type typeToParse = " +:+ typeString
  /\ contentsId (snd (parseType typeString st)) = (contentsId st + 1)%N.
Proof.
  unfold parseType, updateContents. rewrite !bind_run. cbn [fst snd].
  unfold getSourceFile. cbn [service contentsId contents diagnostics].
  destruct (service st) as [cache|].
  - destruct (cachedVersion cache =? contentsId st + 1)%N; cbn [fst snd].
    + by destruct (cachedSourceFile cache).
    + by destruct (parseSourceFile _).
  - cbn [fst snd]. by destruct (parseSourceFile _).
Qed.

(** [getTypeForTypeString] adds its diagnostic exactly when it returns
    nothing for a type string, and no other; every such call rewrites the
    buffer to the alias of the type string and moves the version counter by
    one. Without a type string it returns nothing and leaves the state as it
    is. *)
Theorem getTypeForTypeString_diagnostic (typeString : string) (location : Node)
    (analyzer : Analyzer) (st : State) :
  let run := getTypeForTypeString (Some typeString) location analyzer st in
  diagnostics (snd run)
  = diagnostics st
    ++ match fst run with
       | Some _ => []
       | None => [failedToParseType location]
       end
  /\ contents (snd run) = "export type typeToParse = " +:+ typeString
  /\ contentsId (snd run) = (contentsId st + 1)%N
  /\ getTypeForTypeString None location analyzer st = (None, st).
Proof.
  intros run. unfold run, getTypeForTypeString. rewrite bind_run.
  destruct (parseType_state typeString st) as (Hdiagnostics & Hcontents & Hid).
  destruct (fst (parseType typeString st)); rewrite ?bind_run; simpl.
  - by rewrite Hdiagnostics, app_nil_r.
  - by rewrite Hdiagnostics.
Qed.


(** With a fresh service, [parseType] returns the type of the last type alias
    among the statements the parser made of the buffer: an alias that follows
    in the same text overrides the one the buffer opens with. *)
Theorem parseType_last_alias (typeString : string) (st : State)
    (sourceFile : SourceFile) (before after : list Statement)
    (aliasName : string) (aliasType : TypeNode) :
  serviceFresh st ->
  parseSourceFile ("export type typeToParse = " +:+ typeString) = Some sourceFile ->
  statements sourceFile = before ++ TypeAliasDeclaration aliasName aliasType :: after ->
  Forall (fun node => isTypeAliasDeclaration node = false) after ->
  fst (parseType typeString st) = Some aliasType.
Proof.
  intros Hfresh Hparse Hstatements Hafter.
  rewrite parseType_fresh by done. cbn [fst]. rewrite Hparse. simpl.
  rewrite Hstatements, fold_left_app. cbn [fold_left typeAlias].
  clear Hstatements. induction Hafter as [|node after Hnode _ IH]; [done|].
  destruct node; [done|]. exact IH.
Qed.

(** The freshness of the language service is an invariant of the analysis:
    it holds initially, every [getTypeForTypeString] keeps it, and so does
    every computation that only adds diagnostics. Building the model of a
    class keeps it when the two helpers that run in the whole state,
    [addEventsToMap] and [getLitElementDeclaration], keep it, as they do when
    they reach the scratch buffer through [getTypeForTypeString] only. *)
Theorem serviceFresh_invariant :
  serviceFresh initialState
  /\ (forall typeString location analyzer st,
        serviceFresh st ->
        serviceFresh (snd (getTypeForTypeString typeString location analyzer st)))
  /\ (forall A (m : M A) st,
        onlyAddsDiagnostics m -> serviceFresh st -> serviceFresh (snd (m st)))
  /\ (forall fuel declaration name analyzer docNode st,
        (forall tag events, keeps serviceFresh (addEventsToMap tag events analyzer)) ->
        keeps serviceFresh (getLitElementDeclaration declaration analyzer) ->
        serviceFresh st ->
        serviceFresh
          (snd (getClassDeclaration fuel declaration name analyzer docNode st))).
Proof.
  split; [exact I|]. split; [apply getTypeForTypeString_keeps_fresh|].
  split.
  - intros A m st Hm Hfresh. by destruct (Hm st) as [ds ->].
  - intros fuel declaration name analyzer docNode st Hevents Hlit.
    by apply (getClassDeclaration_keeps serviceFresh).
Qed.

End ScratchMore.

Lemma serviceFresh_invariant_witness :
  serviceFresh
    (snd (@getClassDeclaration firesImports 1 classFiring "XFiring" exampleAnalyzer
            None initialState)).
Proof.
  apply (proj2 (proj2 (proj2 (@serviceFresh_invariant firesImports)))).
  - intros tag events st Hfresh. unfold addEventsToMap, firesImports, firesAddEventsToMap.
    destruct (comment tag) as [[c|parts]|]; [|done..].
    rewrite bind_run. by apply getTypeForTypeString_keeps_fresh.
  - by intros st.
  - exact I.
Defined.

Lemma parseType_last_alias_witness :
  fst (parseType "MyDetail" initialState)
  = Some (TypeReferenceNode (NameIdentifier "MyDetail") []).
Proof.
  apply (parseType_last_alias "MyDetail" initialState
           {| statements :=
                [TypeAliasDeclaration "typeToParse"
                   (TypeReferenceNode (NameIdentifier "MyDetail") []);
                 OtherStatement "EndOfFileToken"] |}
           [] [OtherStatement "EndOfFileToken"] "typeToParse").
  - exact I.
  - reflexivity.
  - reflexivity.
  - by repeat constructor.
Defined.

(** ** References of type syntax *)

Lemma TypeNode_nested_ind (P : TypeNode -> Prop) :
  (forall typeName args, Forall P args -> P (TypeReferenceNode typeName args)) ->
  (forall argument qualifier args,
     P argument -> Forall P args -> P (ImportTypeNode argument qualifier args)) ->
  (forall literal, P (LiteralTypeNode literal)) ->
  (forall kindName nodes, Forall P nodes -> P (OtherTypeNode kindName nodes)) ->
  forall node, P node.
Proof.
  intros Href Himport Hliteral Hother. fix IH 1.
  assert (forall nodes, Forall P nodes) as Hall.
  { fix IHnodes 1. intros [|node nodes]; constructor; [apply IH|apply IHnodes]. }
  intros [typeName args|argument qualifier args|literal|kindName nodes].
  - apply Href, Hall.
  - apply Himport; [apply IH|apply Hall].
  - apply Hliteral.
  - apply Hother, Hall.
Qed.

Section References.
Context `{Imports}.
Implicit Types (location : Node) (analyzer : Analyzer) (node : TypeNode)
  (nodes : list TypeNode) (references : list Reference) (st : State).

Lemma visit_TypeReferenceNode location analyzer (typeName : EntityName) nodes
    references :
  visit location analyzer (TypeReferenceNode typeName nodes) references
  = let name := getRootName (Some typeName) in
    let* symbol := emit (getSymbolForName name location analyzer) in
    match symbol with
    | None =>
        let* _ := addDiagnostic (couldNotGetSymbol location name) in
        ret references
    | Some symbol =>
        let* ref := emit (getReferenceForSymbol symbol location analyzer) in
        visitChildren location analyzer nodes
          (match ref with
           | Some ref => references ++ [ref]
           | None => references
           end)
    end.
Proof. reflexivity. Qed.

Lemma visit_ImportTypeNode location analyzer (argument : TypeNode)
    (qualifier : option EntityName) nodes references :
  visit location analyzer (ImportTypeNode argument qualifier nodes) references
  = match argument with
    | LiteralTypeNode (StringLiteral specifierText) =>
        let* ref :=
          emit (getImportReference
                  (getSpecifierFromTypeImport specifierText analyzer)
                  (StringLiteral specifierText) (getRootName qualifier) analyzer) in
        let* references := visit location analyzer argument (references ++ [ref]) in
        visitChildren location analyzer nodes references
    | LiteralTypeNode literal =>
        let* _ := addDiagnostic (expectedStringSpecifier literal) in
        ret references
    | _ =>
        let* _ := addDiagnostic (expectedStringLiteral argument) in
        ret references
    end.
Proof. destruct argument as [| |[]|]; reflexivity. Qed.

Lemma visit_OtherTypeNode location analyzer (kindName : string) nodes references :
  visit location analyzer (OtherTypeNode kindName nodes) references
  = visitChildren location analyzer nodes references.
Proof. reflexivity. Qed.

Lemma visitChildren_cons location analyzer node nodes references st :
  visitChildren location analyzer (node :: nodes) references st
  = visitChildren location analyzer nodes
      (fst (visit location analyzer node references st))
      (snd (visit location analyzer node references st)).
Proof.
  change (visitChildren location analyzer (node :: nodes) references)
    with (let* references' := visit location analyzer node references in
          visitChildren location analyzer nodes references').
  by rewrite bind_run.
Qed.

Lemma visitChildren_purely location analyzer nodes :
  Forall (fun node => visitsPurely (visit location analyzer node))
    nodes ->
  visitsPurely (visitChildren location analyzer nodes).
Proof.
  induction 1 as [|node nodes (found & ds & Hnode) _ (found' & ds' & Hnodes)].
  - exists [], []. intros references st. simpl. unfold ret.
    by rewrite app_nil_r, withDiagnostics_nil.
  - exists (found ++ found'), (ds ++ ds'). intros references st.
    rewrite visitChildren_cons, Hnode. cbn [fst snd].
    by rewrite Hnodes, withDiagnostics_app, app_assoc.
Qed.

Lemma visit_purely location analyzer node :
  visitsPurely (visit location analyzer node).
Proof.
  induction node as [typeName nodes IH|argument qualifier nodes IHargument IH
                    |literal|kindName nodes IH] using TypeNode_nested_ind.
  - apply visitChildren_purely in IH as (found & ds & Hnodes).
    destruct (getSymbolForName (getRootName (Some typeName)) location analyzer)
      as [[symbol|] ds1] eqn:Hsymbol.
    + destruct (getReferenceForSymbol symbol location analyzer)
        as [ref ds2] eqn:Href.
      exists (match ref with Some ref => [ref] | None => [] end ++ found),
        (ds1 ++ ds2 ++ ds).
      intros references st. rewrite visit_TypeReferenceNode. cbv zeta.
      rewrite bind_run, Hsymbol. cbn [fst snd emit].
      rewrite bind_run, Href. cbn [fst snd emit].
      rewrite Hnodes, !withDiagnostics_app.
      destruct ref; simpl; by rewrite <- ?app_assoc.
    + exists [], (ds1 ++ [couldNotGetSymbol location (getRootName (Some typeName))]).
      intros references st. rewrite visit_TypeReferenceNode. cbv zeta.
      rewrite bind_run, Hsymbol. cbn [fst snd emit].
      rewrite bind_run. cbn [fst snd addDiagnostic ret].
      by rewrite withDiagnostics_app, app_nil_r.
  - apply visitChildren_purely in IH as (found & ds & Hnodes).
    destruct IHargument as (found' & ds' & Hargument).
    assert (forall d references st,
              (let* _ := addDiagnostic d in ret references) st
              = (references ++ [], withDiagnostics st [d])) as Hskip.
    { intros d references st. rewrite bind_run. by rewrite app_nil_r. }
    destruct argument as [| |literal|];
      try (eexists [], [_]; intros references st;
           rewrite visit_ImportTypeNode; apply Hskip).
    destruct literal as [| |specifierText| | | |];
      try (eexists [], [_]; intros references st;
           rewrite visit_ImportTypeNode; apply Hskip).
    destruct (getImportReference (getSpecifierFromTypeImport specifierText analyzer)
                (StringLiteral specifierText) (getRootName qualifier) analyzer)
      as [ref ds1] eqn:Href.
    exists ([ref] ++ found' ++ found), (ds1 ++ ds' ++ ds).
    intros references st. rewrite visit_ImportTypeNode.
    rewrite bind_run, Href. cbn [fst snd emit].
    rewrite bind_run, Hargument. cbn [fst snd].
    rewrite Hnodes, !withDiagnostics_app. simpl. by rewrite <- ?app_assoc.
  - exists [], []. intros references st. simpl. unfold ret.
    by rewrite app_nil_r, withDiagnostics_nil.
  - apply visitChildren_purely in IH as (found & ds & Hnodes).
    exists found, ds. intros references st. by rewrite visit_OtherTypeNode.
Qed.

Lemma visit_references location analyzer node references st :
  fst (visit location analyzer node references st)
  = references ++ fst (getReferencesForTypeNode node location analyzer st).
Proof.
  unfold getReferencesForTypeNode.
  destruct (visit_purely location analyzer node) as (found & ds & Hrun).
  by rewrite !Hrun.
Qed.

Lemma getReferencesForTypeNode_fst location analyzer node st st' :
  fst (getReferencesForTypeNode node location analyzer st)
  = fst (getReferencesForTypeNode node location analyzer st').
Proof.
  unfold getReferencesForTypeNode.
  destruct (visit_purely location analyzer node) as (found & ds & Hrun).
  by rewrite !Hrun.
Qed.

Lemma concat_references location analyzer nodes st st' :
  concat (map (fun node => fst (getReferencesForTypeNode node location analyzer st))
            nodes)
  = concat (map (fun node => fst (getReferencesForTypeNode node location analyzer st'))
              nodes).
Proof.
  f_equal. apply map_ext. intros node. apply getReferencesForTypeNode_fst.
Qed.

Lemma visitChildren_references location analyzer nodes references st :
  fst (visitChildren location analyzer nodes references st)
  = references
    ++ concat (map (fun node => fst (getReferencesForTypeNode node location analyzer st))
                 nodes).
Proof.
  revert references st. induction nodes as [|node nodes IH]; intros references st.
  - simpl. by rewrite app_nil_r.
  - rewrite visitChildren_cons, IH, visit_references. cbn [map concat].
    rewrite <- app_assoc. do 2 f_equal. apply concat_references.
Qed.

(** The references of a type node are the same in whatever state they are
    computed, and computing them does nothing to the state but add the same
    diagnostics each time: asking a Type for its references again gives the
    same sequence, and the scratch buffer is not touched. *)
Theorem getReferencesForTypeNode_same_in_every_state (typeNode : TypeNode)
    location analyzer :
  exists found ds, forall st,
    getReferencesForTypeNode typeNode location analyzer st
    = (found, withDiagnostics st ds).
Proof.
  destruct (visit_purely location analyzer typeNode) as (found & ds & Hrun).
  exists found, ds. intros st. unfold getReferencesForTypeNode. by rewrite Hrun.
Qed.

(** References come in the order of the syntax: a type reference whose root
    name has a symbol gives the reference of that symbol, if it has one,
    followed by the references of its type arguments from left to right; an
    import type with a string literal gives the import reference of the
    normalized specifier and of the root name of its qualifier, followed by
    those of its type arguments; a node of another kind gives the references
    of its children, and a literal type none. *)
Theorem getReferencesForTypeNode_in_order location analyzer st :
  let referencesOf nodes :=
    concat (map (fun node => fst (getReferencesForTypeNode node location analyzer st))
              nodes) in
  (forall typeName nodes symbol,
     fst (getSymbolForName (getRootName (Some typeName)) location analyzer)
     = Some symbol ->
     fst (getReferencesForTypeNode (TypeReferenceNode typeName nodes) location
            analyzer st)
     = option_list (fst (getReferenceForSymbol symbol location analyzer))
       ++ referencesOf nodes)
  /\ (forall specifierText qualifier nodes,
        fst (getReferencesForTypeNode
               (ImportTypeNode (LiteralTypeNode (StringLiteral specifierText))
                  qualifier nodes) location analyzer st)
        = fst (getImportReference
                 (getSpecifierFromTypeImport specifierText analyzer)
                 (StringLiteral specifierText) (getRootName qualifier) analyzer)
          :: referencesOf nodes)
  /\ (forall kindName nodes,
        fst (getReferencesForTypeNode (OtherTypeNode kindName nodes) location
               analyzer st)
        = referencesOf nodes)
  /\ (forall literal,
        getReferencesForTypeNode (LiteralTypeNode literal) location analyzer st
        = ([], st)).
Proof.
  intros referencesOf. unfold getReferencesForTypeNode.
  split; [|split; [|split]].
  - intros typeName nodes symbol Hsymbol.
    rewrite visit_TypeReferenceNode. cbv zeta.
    rewrite bind_run. cbn [fst snd emit]. rewrite Hsymbol.
    rewrite bind_run. cbn [fst snd emit].
    rewrite visitChildren_references. unfold referencesOf.
    rewrite (concat_references _ _ _ _ st).
    by destruct (fst (getReferenceForSymbol symbol location analyzer)).
  - intros specifierText qualifier nodes.
    rewrite visit_ImportTypeNode, !bind_run. cbn [fst snd emit visit ret].
    rewrite visitChildren_references. unfold referencesOf.
    by rewrite (concat_references _ _ _ _ st).
  - intros kindName nodes. rewrite visit_OtherTypeNode, visitChildren_references.
    reflexivity.
  - reflexivity.
Qed.

(** What is skipped: a type reference whose root name has no symbol gives a
    diagnostic and no reference, and its type arguments are not visited; so
    does an import type whose argument is not a literal type, or is a literal
    that is no string literal. *)
Theorem getReferencesForTypeNode_skips location analyzer st :
  (forall typeName nodes,
     fst (getSymbolForName (getRootName (Some typeName)) location analyzer) = None ->
     getReferencesForTypeNode (TypeReferenceNode typeName nodes) location analyzer st
     = ([], withDiagnostics st
              (snd (getSymbolForName (getRootName (Some typeName)) location analyzer)
               ++ [couldNotGetSymbol location (getRootName (Some typeName))])))
  /\ (forall argument qualifier nodes,
        (forall literal, argument <> LiteralTypeNode literal) ->
        getReferencesForTypeNode (ImportTypeNode argument qualifier nodes) location
          analyzer st
        = ([], withDiagnostics st [expectedStringLiteral argument]))
  /\ (forall literal qualifier nodes,
        (forall specifierText, literal <> StringLiteral specifierText) ->
        getReferencesForTypeNode
          (ImportTypeNode (LiteralTypeNode literal) qualifier nodes) location
          analyzer st
        = ([], withDiagnostics st [expectedStringSpecifier literal])).
Proof.
  unfold getReferencesForTypeNode. split; [|split].
  - intros typeName nodes Hsymbol. rewrite visit_TypeReferenceNode. cbv zeta.
    rewrite bind_run. cbn [fst snd emit]. rewrite Hsymbol.
    rewrite bind_run. cbn [fst snd addDiagnostic ret].
    by rewrite withDiagnostics_app.
  - intros argument qualifier nodes Hargument. rewrite visit_ImportTypeNode.
    destruct argument as [| |literal|]; rewrite ?bind_run; try done.
    by destruct (Hargument literal).
  - intros literal qualifier nodes Hliteral. rewrite visit_ImportTypeNode.
    destruct literal as [| |specifierText| | | |]; rewrite ?bind_run; try done.
    by destruct (Hliteral specifierText).
Qed.

(** [getRootName] gives the left-most identifier of a qualified name, however
    long the qualification, and the empty string when there is no name. *)
Theorem getRootName_leftmost (root : string) (rights : list string) :
  getRootName (Some (fold_left QualifiedName rights (NameIdentifier root))) = root
  /\ getRootName None = EmptyString.
Proof.
  split; [|done].
  induction rights as [|right rights IH] using rev_ind; [done|].
  by rewrite fold_left_app.
Qed.

End References.

(** The two import types, run: the specifier of the first is normalized to
    the package, and the type argument follows; the second gives a diagnostic
    and its type argument is not visited. *)
Example getReferencesForTypeNode_imports :
  fst (getReferencesForTypeNode importOfLit (OtherNode "JSDocTag") exampleAnalyzer
         initialState)
  = [{| referenceName := "TemplateResult"; referenceModule := Some "lit" |};
     {| referenceName := "Foo"; referenceModule := None |}]
  /\ getReferencesForTypeNode importOfExpression (OtherNode "JSDocTag")
       exampleAnalyzer initialState
     = ([], withDiagnostics initialState
              [expectedStringLiteral (OtherTypeNode "TypeQuery" [])]).
Proof. by vm_compute. Qed.
